(** * BrainDump: the entry store behind [braindump.py]

    A shallow embedding of the persistence and query logic of the
    [BrainDumpApp] class: the SQLite table [entries], the attachment
    directory, the widgets the handlers read and write, and the handlers
    themselves ([add_note], [add_file], [paste_from_clipboard],
    [save_pasted_image_data], [copy_file_to_storage], [load_entries],
    [on_entry_select], [delete_entry]).

    Conventions of the model.
    - A Python [str] is a [string]; a character is a code point below 256
      (Latin-1), which is where [str.strip], [str.lower] and SQLite's LIKE
      are defined below.
    - The file system is a finite map from absolute POSIX paths to file
      contents.
    - The database connection is reliable: the [sqlite3.Error] branches of
      the handlers are not reachable in the model.
    - What a handler receives from outside (the clock, the answer to a
      dialog, the clipboard, an I/O fault) is an explicit input. *)

From Stdlib Require Import ZArith NArith List Bool Ascii String Lia.
From Stdlib Require Import Init.Byte.
From Stdlib Require Import Sorting.Sorted Sorting.Permutation.
From stdpp Require Import gmap strings.

Local Open Scope Z_scope.

(** ** Python string operations *)

Module Py.

Definition ord (c : ascii) : N := N_of_ascii c.

Definition LF : ascii := "010"%char.
Definition CR : ascii := "013"%char.
Definition QUOTE : ascii := "034"%char.

(** [str.isspace] on one code point below 256. *)
Definition isspace (c : ascii) : bool :=
  let n := ord c in
  (((9 <=? n) && (n <=? 13)) || ((28 <=? n) && (n <=? 32))
   || (n =? 133) || (n =? 160))%N.

(** [str.lower] on one code point below 256: A-Z and the Latin-1
    capitals U+00C0..U+00DE except the multiplication sign. *)
Definition lower_char (c : ascii) : ascii :=
  let n := ord c in
  if (((65 <=? n) && (n <=? 90))
      || ((192 <=? n) && (n <=? 222) && negb (n =? 215)))%N
  then ascii_of_N (n + 32) else c.

Fixpoint lower (s : string) : string :=
  match s with
  | EmptyString => EmptyString
  | String c s' => String (lower_char c) (lower s')
  end.

(** Truthiness of a [str]: non-empty. *)
Definition truthy (s : string) : bool :=
  match s with EmptyString => false | String _ _ => true end.

Section Strip.
Variable p : ascii -> bool.

Fixpoint lstrip_by (s : string) : string :=
  match s with
  | EmptyString => EmptyString
  | String c s' => if p c then lstrip_by s' else s
  end.

Fixpoint rstrip_by (s : string) : string :=
  match s with
  | EmptyString => EmptyString
  | String c s' =>
      match rstrip_by s' with
      | EmptyString => if p c then EmptyString else String c EmptyString
      | r => String c r
      end
  end.

Definition strip_by (s : string) : string := rstrip_by (lstrip_by s).
End Strip.

(** [s.strip()] *)
Definition strip (s : string) : string := strip_by isspace s.

(** [s.strip(chars)] for a one-character [chars]. *)
Definition strip_char (ch : ascii) (s : string) : string :=
  strip_by (Ascii.eqb ch) s.

(** [ch in s] *)
Fixpoint contains (ch : ascii) (s : string) : bool :=
  match s with
  | EmptyString => false
  | String c s' => Ascii.eqb c ch || contains ch s'
  end.

(** [s.split(ch)[0]] *)
Fixpoint split_head (ch : ascii) (s : string) : string :=
  match s with
  | EmptyString => EmptyString
  | String c s' => if Ascii.eqb c ch then EmptyString
                   else String c (split_head ch s')
  end.

(** [s.replace(ch, '')] *)
Fixpoint remove (ch : ascii) (s : string) : string :=
  match s with
  | EmptyString => EmptyString
  | String c s' => if Ascii.eqb c ch then remove ch s'
                   else String c (remove ch s')
  end.

(** [s[:n]] *)
Fixpoint take (n : nat) (s : string) : string :=
  match n, s with
  | S n', String c s' => String c (take n' s')
  | _, _ => EmptyString
  end.

(** [len(s)] *)
Definition len (s : string) : Z := Z.of_nat (String.length s).

(** [s.startswith(t)] *)
Fixpoint startswith (t s : string) : bool :=
  match t, s with
  | EmptyString, _ => true
  | String a t', String c s' => Ascii.eqb a c && startswith t' s'
  | String _ _, EmptyString => false
  end.

Fixpoint rev_onto (s acc : string) : string :=
  match s with
  | EmptyString => acc
  | String c s' => rev_onto s' (String c acc)
  end.

(** [s.endswith(t)] *)
Definition endswith (t s : string) : bool :=
  startswith (rev_onto t EmptyString) (rev_onto s EmptyString).

(** [s.endswith((t1, ..., tn))] *)
Definition endswith_any (ts : list string) (s : string) : bool :=
  existsb (fun t => endswith t s) ts.

End Py.

(** ** [os.path] on POSIX *)

Module OsPath.

Definition sep : ascii := "/"%char.
Definition extsep : ascii := "."%char.

(** [os.path.join(a, b)] *)
Definition join (a b : string) : string :=
  if Py.startswith "/" b then b
  else if negb (Py.truthy a) || Py.endswith "/" a then a +:+ b
  else a +:+ "/" +:+ b.

(** [os.path.basename(p)]: what follows the last separator. *)
Fixpoint basename (p : string) : string :=
  match p with
  | EmptyString => EmptyString
  | String c p' =>
      if Py.contains sep p' then basename p'
      else if Ascii.eqb c sep then p' else p
  end.

(** [os.path.splitext(name)] for a name without a separator: the split
    is at the last dot, unless only dots come before it. *)
Fixpoint splitext_from (seen_other : bool) (name : string) : string * string :=
  match name with
  | EmptyString => (EmptyString, EmptyString)
  | String c rest =>
      if Ascii.eqb c extsep && seen_other && negb (Py.contains extsep rest)
      then (EmptyString, name)
      else
        let '(b, e) :=
          splitext_from (seen_other || negb (Ascii.eqb c extsep)) rest in
        (String c b, e)
  end.

Definition splitext (name : string) : string * string :=
  splitext_from false name.

End OsPath.

(** ** SQLite: three-valued logic and the LIKE operator *)

Module Sql.

(** An SQL truth value; [None] is NULL. *)
Definition tri := option bool.

Definition sql_or (a b : tri) : tri :=
  match a, b with
  | Some true, _ | _, Some true => Some true
  | Some false, Some false => Some false
  | _, _ => None
  end.

Definition sql_and (a b : tri) : tri :=
  match a, b with
  | Some false, _ | _, Some false => Some false
  | Some true, Some true => Some true
  | _, _ => None
  end.

(** A WHERE clause keeps the rows on which it is true. *)
Definition is_true (a : tri) : bool :=
  match a with Some true => true | _ => false end.

(** LIKE folds the case of the 26 ASCII letters only. *)
Definition fold_char (c : ascii) : ascii :=
  let n := Py.ord c in
  if ((65 <=? n) && (n <=? 90))%N then ascii_of_N (n + 32) else c.

Definition char_eq_nocase (a b : ascii) : bool :=
  Ascii.eqb (fold_char a) (fold_char b).

Definition percent : ascii := "%"%char.
Definition underscore : ascii := "_"%char.

(** [like pat s]: does [s] match the LIKE pattern [pat] (no ESCAPE)?
    A percent sign matches any run of characters, an underscore exactly one,
    any other character itself up to ASCII case. *)
Fixpoint like (pat : string) : string -> bool :=
  match pat with
  | EmptyString => fun s => negb (Py.truthy s)
  | String c pat' =>
      if Ascii.eqb c percent then
        fix skip (s : string) : bool :=
          like pat' s
          || match s with
             | EmptyString => false
             | String _ s' => skip s'
             end
      else if Ascii.eqb c underscore then
        fun s => match s with
                 | EmptyString => false
                 | String _ s' => like pat' s'
                 end
      else
        fun s => match s with
                 | EmptyString => false
                 | String d s' => char_eq_nocase c d && like pat' s'
                 end
  end.


(** [x LIKE pat] on a nullable column. *)
Definition like_op (x : option string) (pat : string) : tri :=
  match x with
  | None => None
  | Some s => Some (like pat s)
  end.

End Sql.

(** ** The clock *)

Record datetime := {
  year : N; month : N; day : N;
  hour : N; minute : N; second : N; microsecond : N
}.

Module Clock.

Definition digit (n : N) : ascii := ascii_of_N (48 + n mod 10).

Definition zpad2 (n : N) : string :=
  String (digit (n / 10)) (String (digit n) EmptyString).

Definition zpad4 (n : N) : string :=
  String (digit (n / 1000)) (String (digit (n / 100)) (zpad2 n)).

(** [dt.strftime("%Y%m%d%H%M%S")] *)
Definition strftime_compact (d : datetime) : string :=
  zpad4 (year d) +:+ zpad2 (month d) +:+ zpad2 (day d)
  +:+ zpad2 (hour d) +:+ zpad2 (minute d) +:+ zpad2 (second d).

(** SQLite's CURRENT_TIMESTAMP, "YYYY-MM-DD HH:MM:SS", for the UTC
    clock reading [d]. *)
Definition current_timestamp (d : datetime) : string :=
  zpad4 (year d) +:+ "-" +:+ zpad2 (month d) +:+ "-" +:+ zpad2 (day d)
  +:+ " " +:+ zpad2 (hour d) +:+ ":" +:+ zpad2 (minute d)
  +:+ ":" +:+ zpad2 (second d).

(** Two clock readings within the same second. *)
Definition same_second (a b : datetime) : Prop :=
  year a = year b /\ month a = month b /\ day a = day b
  /\ hour a = hour b /\ minute a = minute b /\ second a = second b.

End Clock.

(** ** The table [entries] *)

Inductive entry_type := note | file.

(** One row; the nullable columns are options. *)
Record Row := {
  id : Z;
  type : entry_type;
  content : string;
  tags : option string;
  filepath : option string;
  timestamp : string;
  description : option string
}.

(** The open database: the table in rowid order and the AUTOINCREMENT
    counter SQLite keeps in [sqlite_sequence]. *)
Record Conn := { rows : list Row; seq : Z }.

Module Db.

Definition max_rowid (t : list Row) : Z :=
  fold_right (fun r m => Z.max (id r) m) 0 t.

(** The rowid AUTOINCREMENT assigns next. *)
Definition next_rowid (db : Conn) : Z :=
  Z.max (seq db) (max_rowid (rows db)) + 1.

(** [INSERT INTO entries (type, content, tags, filepath, description)];
    the three-column INSERT of [add_note] leaves the last two NULL.
    The timestamp column takes its default, CURRENT_TIMESTAMP. *)
Definition insert (utc : datetime) (ty : entry_type) (c t : string)
           (fp d : option string) (db : Conn) : Conn :=
  let i := next_rowid db in
  {| rows := rows db ++
             [ {| id := i; type := ty; content := c; tags := Some t;
                  filepath := fp;
                  timestamp := Clock.current_timestamp utc;
                  description := d |} ];
     seq := i |}.

(** [SELECT ... FROM entries WHERE id = ?] followed by [fetchone()]. *)
Definition fetchone_by_id (i : Z) (db : Conn) : option Row :=
  List.find (fun r => id r =? i) (rows db).

(** [DELETE FROM entries WHERE id = ?] *)
Definition delete_by_id (i : Z) (db : Conn) : Conn :=
  {| rows := List.filter (fun r => negb (id r =? i)) (rows db);
     seq := seq db |}.

(** [a] may come before [b] under ORDER BY timestamp DESC; the column
    holds text, compared bytewise. *)
Definition ts_ge (a b : Row) : bool :=
  String.leb (timestamp b) (timestamp a).

(** As a relation: [a] is listed no later than [b]. *)
Definition newer_or_equal (a b : Row) : Prop := ts_ge a b = true.

(** The rows stamped [ts]. *)
Definition stamped (ts : string) (r : Row) : bool :=
  String.eqb (timestamp r) ts.

Fixpoint insert_sorted (x : Row) (l : list Row) : list Row :=
  match l with
  | [] => [x]
  | y :: l' => if ts_ge x y then x :: l else y :: insert_sorted x l'
  end.

(** ORDER BY timestamp DESC with no further key: SQLite's sorter leaves
    rows with equal keys in the order the scan produced them. *)
Definition order_by_timestamp_desc (l : list Row) : list Row :=
  fold_right insert_sorted [] l.

(** The conjunction of the WHERE fragments, joined with AND. *)
Definition where_all (clauses : list (Row -> Sql.tri)) (r : Row) : Sql.tri :=
  fold_right (fun cl acc => Sql.sql_and (cl r) acc) (Some true) clauses.

(** [SELECT ... FROM entries [WHERE ...] ORDER BY timestamp DESC] *)
Definition select_ordered (clauses : list (Row -> Sql.tri)) (db : Conn)
  : list Row :=
  order_by_timestamp_desc
    (List.filter (fun r => Sql.is_true (where_all clauses r)) (rows db)).

End Db.

(** ** The file system *)

Definition bytes := list byte.

Module Fs.

(** [os.path.exists(p)] *)
Definition exists_ (p : string) (disk : gmap string bytes) : bool :=
  bool_decide (is_Some (disk !! p)).

(** [os.path.isfile(p)]: the disk of the model holds regular files only. *)
Definition isfile (p : string) (disk : gmap string bytes) : bool :=
  exists_ p disk.

(** [shutil.copy2(src, dst)]: the new disk, or the text of the exception.
    [fault] is the I/O error the operating system raises, if any. *)
Definition copy2 (fault : option string) (src dst : string)
           (disk : gmap string bytes) : string + gmap string bytes :=
  match disk !! src with
  | None => inl ("No such file or directory: " +:+ src)
  | Some b =>
      if String.eqb src dst then inl (src +:+ " and " +:+ dst +:+ " are the same file")
      else match fault with
           | Some e => inl e
           | None => inr (<[dst := b]> disk)
           end
  end.

(** [im.save(p, 'PNG')] where [png] is the encoding of the image. *)
Definition save (fault : option string) (p : string) (png : bytes)
           (disk : gmap string bytes) : string + gmap string bytes :=
  match fault with
  | Some e => inl e
  | None => inr (<[p := png]> disk)
  end.

(** [os.remove(p)] on an existing file. *)
Definition remove (fault : option string) (p : string)
           (disk : gmap string bytes) : string + gmap string bytes :=
  match fault with
  | Some e => inl e
  | None => inr (delete p disk)
  end.

End Fs.

(** ** The application state *)

Inductive icon := showinfo | showwarning | showerror.

(** One call to [messagebox]. *)
Record Message := { box : icon; title : string; message : string }.

(** One line of the Treeview: its iid and the three displayed columns
    (date, type, preview). *)
Record TreeItem := { iid : Z; values : string * string * string }.

Inductive Display :=
| Welcome
| Viewing (entry_id : Z) (entry : Row).

Record App := {
  conn : Conn;
  disk : gmap string bytes;
  note_text : string;
  note_cursor : nat;
  tag_entry : string;
  search_entry : string;
  tag_filter_entry : string;
  tree : list TreeItem;
  display : Display;
  messages : list Message
}.

Definition set_conn (c : Conn) (st : App) : App :=
  {| conn := c; disk := disk st; note_text := note_text st;
     note_cursor := note_cursor st; tag_entry := tag_entry st;
     search_entry := search_entry st;
     tag_filter_entry := tag_filter_entry st; tree := tree st;
     display := display st; messages := messages st |}.

Definition set_disk (d : gmap string bytes) (st : App) : App :=
  {| conn := conn st; disk := d; note_text := note_text st;
     note_cursor := note_cursor st; tag_entry := tag_entry st;
     search_entry := search_entry st;
     tag_filter_entry := tag_filter_entry st; tree := tree st;
     display := display st; messages := messages st |}.

Definition set_note_text (t : string) (cur : nat) (st : App) : App :=
  {| conn := conn st; disk := disk st; note_text := t;
     note_cursor := cur; tag_entry := tag_entry st;
     search_entry := search_entry st;
     tag_filter_entry := tag_filter_entry st; tree := tree st;
     display := display st; messages := messages st |}.

Definition set_tag_entry (t : string) (st : App) : App :=
  {| conn := conn st; disk := disk st; note_text := note_text st;
     note_cursor := note_cursor st; tag_entry := t;
     search_entry := search_entry st;
     tag_filter_entry := tag_filter_entry st; tree := tree st;
     display := display st; messages := messages st |}.

Definition set_tree (t : list TreeItem) (st : App) : App :=
  {| conn := conn st; disk := disk st; note_text := note_text st;
     note_cursor := note_cursor st; tag_entry := tag_entry st;
     search_entry := search_entry st;
     tag_filter_entry := tag_filter_entry st; tree := t;
     display := display st; messages := messages st |}.

Definition set_display (d : Display) (st : App) : App :=
  {| conn := conn st; disk := disk st; note_text := note_text st;
     note_cursor := note_cursor st; tag_entry := tag_entry st;
     search_entry := search_entry st;
     tag_filter_entry := tag_filter_entry st; tree := tree st;
     display := d; messages := messages st |}.

(** [messagebox.show...(title, message)] *)
Definition messagebox (i : icon) (t m : string) (st : App) : App :=
  {| conn := conn st; disk := disk st; note_text := note_text st;
     note_cursor := note_cursor st; tag_entry := tag_entry st;
     search_entry := search_entry st;
     tag_filter_entry := tag_filter_entry st; tree := tree st;
     display := display st;
     messages := messages st ++ [ {| box := i; title := t; message := m |} ] |}.

Module Tk.

(** [text.get("1.0", tk.END)]: the contents and Tk's final newline. *)
Definition text_get (t : string) : string := t +:+ String Py.LF EmptyString.

Fixpoint drop (n : nat) (s : string) : string :=
  match n, s with
  | S n', String _ s' => drop n' s'
  | _, _ => s
  end.

(** [text.insert(tk.INSERT, t)]: the new contents and insertion mark. *)
Definition text_insert (cur : nat) (t s : string) : string * nat :=
  (Py.take cur s +:+ t +:+ drop cur s,
   (Nat.min cur (String.length s) + String.length t)%nat).

End Tk.

(** What [ImageGrab.grabclipboard()] does. *)
Inductive Grab :=
| GrabImage (png : bytes)   (* an image, which has [save] *)
| GrabOther                 (* something else that is not None *)
| GrabNone
| GrabRaises.

(** What [root.clipboard_get()] does. *)
Inductive ClipText :=
| ClipOk (text : string)
| ClipTclError
| ClipRaises (e : string).

(** ** The handlers of [BrainDumpApp] *)

Section BrainDumpApp.

(** [os.path.expanduser('~')] and the module constant [PIL_AVAILABLE]. *)
Variable home : string.
Variable PIL_AVAILABLE : bool.

Definition APP_DIR : string := OsPath.join home "BrainDumpApp".
Definition DB_FILE : string := OsPath.join APP_DIR "braindump.db".
Definition FILES_DIR : string := OsPath.join APP_DIR "files".

(** The preview column computed in [load_entries]. *)
Definition preview (ty : entry_type) (c : string) : string :=
  match ty with
  | note =>
      let p := Py.take 50 (Py.remove Py.CR (Py.split_head Py.LF c)) in
      if (Py.len c >? 50) || Py.contains Py.LF c then p +:+ "..." else p
  | file => c
  end.

(** [type.capitalize()] *)
Definition capitalize (ty : entry_type) : string :=
  match ty with note => "Note" | file => "File" end.

(** [strptime(ts, '%Y-%m-%d %H:%M:%S').strftime('%Y-%m-%d %H:%M')] on a
    timestamp written by CURRENT_TIMESTAMP: its first sixteen characters. *)
Definition ts_date (ts : string) : string := Py.take 16 ts.

Definition tree_item (r : Row) : TreeItem :=
  {| iid := id r;
     values := (ts_date (timestamp r), capitalize (type r),
                preview (type r) (content r)) |}.

(** The WHERE fragments [load_entries] assembles. *)
Definition where_clauses (search_term tag_filter_term : string)
  : list (Row -> Sql.tri) :=
  (if Py.truthy search_term then
     [ fun r =>
         let pat := "%" +:+ search_term +:+ "%" in
         Sql.sql_or (Sql.like_op (Some (content r)) pat)
                    (Sql.like_op (description r) pat) ]
   else [])
  ++
  (if Py.truthy tag_filter_term then
     [ fun r => Sql.like_op (tags r) ("%" +:+ tag_filter_term +:+ "%") ]
   else []).

(** The rows [load_entries] fetches, in order. *)
Definition fetchall (st : App) : list Row :=
  let search_term := Py.strip (search_entry st) in
  let tag_filter_term := Py.lower (Py.strip (tag_filter_entry st)) in
  Db.select_ordered (where_clauses search_term tag_filter_term) (conn st).

Definition load_entries (st : App) : App :=
  set_tree (map tree_item (fetchall st)) st.

Definition show_welcome_message (st : App) : App := set_display Welcome st.

Definition display_entry (entry_id : Z) (entry : Row) (st : App) : App :=
  set_display (Viewing entry_id entry) st.

(** [note_text.delete("1.0", END); tag_entry.delete(0, END)] *)
Definition clear_inputs (st : App) : App :=
  set_tag_entry EmptyString (set_note_text EmptyString 0%nat st).

Definition add_note (utc : datetime) (st : App) : App :=
  let content := Py.strip (Tk.text_get (note_text st)) in
  let tags := Py.lower (Py.strip (tag_entry st)) in
  if negb (Py.truthy content) then
    messagebox showwarning "Empty Note" "Cannot save an empty note." st
  else
    let st := set_conn (Db.insert utc note content tags None None (conn st)) st in
    load_entries (clear_inputs st).

Definition copy_file_to_storage (now : datetime) (fault : option string)
           (filepath filename : string) (st : App) : option string * App :=
  let new_filepath := OsPath.join FILES_DIR filename in
  let new_filepath :=
    if Fs.exists_ new_filepath (disk st) then
      let '(base, ext) := OsPath.splitext filename in
      let timestamp := Clock.strftime_compact now in
      let new_filename := base +:+ "_" +:+ timestamp +:+ ext in
      OsPath.join FILES_DIR new_filename
    else new_filepath in
  match Fs.copy2 fault filepath new_filepath (disk st) with
  | inr d => (Some new_filepath, set_disk d st)
  | inl e =>
      (None, messagebox showerror "File Error" ("Failed to copy file: " +:+ e) st)
  end.

(** [not new_filepath] *)
Definition falsy (p : option string) : bool :=
  match p with None => true | Some s => negb (Py.truthy s) end.

(** The part [add_file] and the path branch of [paste_from_clipboard]
    have in common: copy, then INSERT. *)
Definition store_file (now utc : datetime) (fault : option string)
           (filepath : string) (st : App) : App :=
  let tags := Py.lower (Py.strip (tag_entry st)) in
  let description := Py.strip (Tk.text_get (note_text st)) in
  let filename := OsPath.basename filepath in
  let '(new_filepath, st) := copy_file_to_storage now fault filepath filename st in
  if falsy new_filepath then st
  else
    let st := set_conn (Db.insert utc file filename tags new_filepath
                                  (Some description) (conn st)) st in
    load_entries (clear_inputs st).

(** [picked] is what [filedialog.askopenfilename] returns. *)
Definition add_file (picked : string) (now utc : datetime)
           (fault : option string) (st : App) : App :=
  if negb (Py.truthy picked) then st
  else store_file now utc fault picked st.

Definition save_pasted_image_data (now utc : datetime) (fault : option string)
           (im : bytes) (st : App) : App :=
  let tags := Py.lower (Py.strip (tag_entry st)) in
  let description := Py.strip (Tk.text_get (note_text st)) in
  let timestamp := Clock.strftime_compact now in
  let filename := "paste_" +:+ timestamp +:+ ".png" in
  let new_filepath := OsPath.join FILES_DIR filename in
  match Fs.save fault new_filepath im (disk st) with
  | inl e =>
      messagebox showerror "File Error" ("Failed to save pasted image: " +:+ e) st
  | inr d =>
      let st := set_disk d st in
      let st := set_conn (Db.insert utc file filename tags (Some new_filepath)
                                    (Some description) (conn st)) st in
      load_entries (clear_inputs st)
  end.

Definition valid_image_extensions : list string :=
  [".png"; ".jpg"; ".jpeg"; ".bmp"; ".gif"].

(** Steps 2 and 3 of [paste_from_clipboard]: the clipboard as text. *)
Definition paste_text (clip : ClipText) (now utc : datetime)
           (fault : option string) (st : App) : App :=
  match clip with
  | ClipTclError =>
      messagebox showinfo "Clipboard Empty"
        "The clipboard is empty or does not contain text or a valid image." st
  | ClipRaises e =>
      messagebox showerror "Clipboard Error"
        ("Could not read text from clipboard: " +:+ e) st
  | ClipOk clipboard_text =>
      if negb (Py.truthy clipboard_text) then
        messagebox showinfo "Clipboard Empty" "The clipboard is empty." st
      else
        let cleaned_path := Py.strip_char Py.QUOTE (Py.strip clipboard_text) in
        if Fs.exists_ cleaned_path (disk st)
           && Fs.isfile cleaned_path (disk st)
           && Py.endswith_any valid_image_extensions (Py.lower cleaned_path)
        then store_file now utc fault cleaned_path st
        else
          let '(t, cur) :=
            Tk.text_insert (note_cursor st) clipboard_text (note_text st) in
          set_note_text t cur st
  end.

Definition paste_from_clipboard (grab : Grab) (clip : ClipText)
           (now utc : datetime) (fault : option string) (st : App) : App :=
  if negb PIL_AVAILABLE then
    messagebox showerror "Feature Disabled"
      ("This feature requires the 'Pillow' library."
       +:+ String Py.LF (String Py.LF EmptyString)
       +:+ "Please install it using: pip install Pillow") st
  else
    match grab with
    | GrabRaises =>
        match clip with
        | ClipTclError =>
            messagebox showinfo "Clipboard Empty" "The clipboard is empty." st
        | ClipRaises e =>
            messagebox showerror "Clipboard Error"
              ("Could not read from clipboard: " +:+ e) st
        | ClipOk _ => paste_text clip now utc fault st
        end
    | GrabImage im => save_pasted_image_data now utc fault im st
    | GrabOther | GrabNone => paste_text clip now utc fault st
    end.

(** [selected_items] is [tree.selection()]. *)
Definition on_entry_select (selected_items : list Z) (st : App) : App :=
  match selected_items with
  | [] => st
  | entry_id :: _ =>
      match Db.fetchone_by_id entry_id (conn st) with
      | Some entry => display_entry entry_id entry st
      | None => st
      end
  end.

(** [askyesno] is the answer to the confirmation dialog. *)
Definition delete_entry (askyesno : bool) (fault : option string)
           (entry_id : Z) (st : App) : App :=
  if negb askyesno then st
  else
    let st :=
      match Db.fetchone_by_id entry_id (conn st) with
      | Some entry =>
          match type entry, filepath entry with
          | file, Some p =>
              if Py.truthy p && Fs.exists_ p (disk st) then
                match Fs.remove fault p (disk st) with
                | inr d => set_disk d st
                | inl e =>
                    messagebox showerror "File Error"
                      ("Failed to delete file: " +:+ e
                       +:+ ". The database entry will still be removed.") st
                end
              else st
          | _, _ => st
          end
      | None => st
      end in
    let st := set_conn (Db.delete_by_id entry_id (conn st)) st in
    show_welcome_message (load_entries st).

(** The window once [__init__] has run on a database and a disk. *)
Definition startup (db : Conn) (d : gmap string bytes) : App :=
  load_entries
    (show_welcome_message
       {| conn := db; disk := d; note_text := EmptyString;
          note_cursor := 0%nat; tag_entry := EmptyString;
          search_entry := EmptyString; tag_filter_entry := EmptyString;
          tree := []; display := Welcome; messages := [] |}).

(** What the user can do to the window. *)
Inductive Action :=
| SaveNote (utc : datetime)
| AddFile (picked : string) (now utc : datetime) (fault : option string)
| PasteFromClipboard (grab : Grab) (clip : ClipText) (now utc : datetime)
                     (fault : option string)
| TypeNote (t : string) (cur : nat)
| TypeTags (t : string)
| TypeSearch (t : string)
| TypeTagFilter (t : string)
| SelectEntry (selected_items : list Z)
| DeleteEntry (entry_id : Z) (askyesno : bool) (fault : option string).

Definition set_search_entry (t : string) (st : App) : App :=
  {| conn := conn st; disk := disk st; note_text := note_text st;
     note_cursor := note_cursor st; tag_entry := tag_entry st;
     search_entry := t;
     tag_filter_entry := tag_filter_entry st; tree := tree st;
     display := display st; messages := messages st |}.

Definition set_tag_filter_entry (t : string) (st : App) : App :=
  {| conn := conn st; disk := disk st; note_text := note_text st;
     note_cursor := note_cursor st; tag_entry := tag_entry st;
     search_entry := search_entry st;
     tag_filter_entry := t; tree := tree st;
     display := display st; messages := messages st |}.

Definition step (a : Action) (st : App) : App :=
  match a with
  | SaveNote utc => add_note utc st
  | AddFile picked now utc fault => add_file picked now utc fault st
  | PasteFromClipboard grab clip now utc fault =>
      paste_from_clipboard grab clip now utc fault st
  | TypeNote t cur => set_note_text t cur st
  | TypeTags t => set_tag_entry t st
  | TypeSearch t => load_entries (set_search_entry t st)
  | TypeTagFilter t => load_entries (set_tag_filter_entry t st)
  | SelectEntry sel => on_entry_select sel st
  | DeleteEntry entry_id askyesno fault => delete_entry askyesno fault entry_id st
  end.

Definition run (acts : list Action) (st : App) : App :=
  fold_left (fun s a => step a s) acts st.

End BrainDumpApp.

(** ** The invariant of the table *)

(** A file path directly inside the attachment directory. *)
Definition in_files_dir (home p : string) : Prop :=
  exists name,
    p = FILES_DIR home +:+ "/" +:+ name /\ Py.contains OsPath.sep name = false.

(** A file row points into the attachment directory; a note row has no
    file path. *)
Definition row_ok (home : string) (r : Row) : Prop :=
  match type r with
  | note => filepath r = None
  | file => exists p, filepath r = Some p /\ in_files_dir home p
  end.

Definition store_ok (home : string) (st : App) : Prop :=
  Forall (row_ok home) (rows (conn st)).

(** The table is in rowid order. *)
Definition table_ordered (st : App) : Prop :=
  StronglySorted (fun a b => id a < id b) (rows (conn st)).

(** What a file path has to be for a new row of type [ty]. *)
Definition filepath_ok (home : string) (ty : entry_type) (fp : option string)
  : Prop :=
  match ty with
  | note => fp = None
  | file => exists p, fp = Some p /\ in_files_dir home p
  end.

(** The statements a handler may have run on the database. *)
Inductive db_change (home : string) (db : Conn) : Conn -> Prop :=
| db_same : db_change home db db
| db_inserted utc ty c t fp d :
    filepath_ok home ty fp ->
    db_change home db (Db.insert utc ty c t fp d db)
| db_deleted i : db_change home db (Db.delete_by_id i db).

(** ** The filters as the specification words them *)

Module Spec.

(** [t] with the ASCII letters folded to lower case. *)
Fixpoint fold (t : string) : string :=
  match t with
  | EmptyString => EmptyString
  | String c t' => String (Sql.fold_char c) (fold t')
  end.

(** [s] starts with [t], up to the case of the ASCII letters. *)
Fixpoint prefix_nocase (t s : string) : bool :=
  match t, s with
  | EmptyString, _ => true
  | String a t', String c s' => Sql.char_eq_nocase a c && prefix_nocase t' s'
  | String _ _, EmptyString => false
  end.

(** [s] contains [t] as a substring, up to the case of the ASCII letters. *)
Fixpoint contains_nocase (t s : string) : bool :=
  prefix_nocase t s
  || match s with
     | EmptyString => false
     | String _ s' => contains_nocase t s'
     end.



End Spec.

(** ** Auxiliary notions *)

(** The path [copy_file_to_storage] settles on before it copies. *)
Definition storage_path (home : string) (now : datetime) (filename : string)
           (d : gmap string bytes) : string :=
  let new_filepath := OsPath.join (FILES_DIR home) filename in
  if Fs.exists_ new_filepath d then
    let '(base, ext) := OsPath.splitext filename in
    let timestamp := Clock.strftime_compact now in
    let new_filename := base +:+ "_" +:+ timestamp +:+ ext in
    OsPath.join (FILES_DIR home) new_filename
  else new_filepath.

(** [p[:p.rfind('/') + 1]]: the text up to and with the last separator. *)
Fixpoint head_of (p : string) : string :=
  match p with
  | EmptyString => EmptyString
  | String c p' =>
      if Py.contains OsPath.sep p' then String c (head_of p')
      else if Ascii.eqb c OsPath.sep then String c EmptyString
      else EmptyString
  end.

(** [head == '/' * len(head)] *)
Fixpoint all_sep (s : string) : bool :=
  match s with
  | EmptyString => true
  | String c s' => Ascii.eqb c OsPath.sep && all_sep s'
  end.

(** [os.path.dirname(p)] on POSIX. *)
Definition dirname (p : string) : string :=
  let head := head_of p in
  if Py.truthy head && negb (all_sep head)
  then Py.rstrip_by (Ascii.eqb OsPath.sep) head
  else head.

(** [sys.platform], as far as the handlers tell its values apart. *)
Inductive Platform := win32 | darwin | other_platform.

(** What a handler asks the operating system to start. *)
Inductive Launch :=
| Startfile (path : string)
| Subprocess (argv : list string).

(** [open_file_externally]; [normpath] is [os.path.normpath], which only the
    Windows branch calls, and [fault] the exception the launch raises. *)
Definition open_file_externally (normpath : string -> string)
           (platform : Platform) (fault : option string) (filepath : string)
           (st : App) : Launch * App :=
  (match platform with
   | win32 => Startfile (normpath filepath)
   | darwin => Subprocess ["open"; filepath]
   | other_platform => Subprocess ["xdg-open"; filepath]
   end,
   match fault with
   | Some e =>
       messagebox showerror "Error"
         ("Could not open file: " +:+ e
          +:+ String Py.LF (String Py.LF EmptyString)
          +:+ "Path: " +:+ filepath) st
   | None => st
   end).

(** [open_file_location] *)
Definition open_file_location (normpath : string -> string)
           (platform : Platform) (fault : option string) (filepath : string)
           (st : App) : Launch * App :=
  (match platform with
   | win32 => Subprocess ["explorer"; "/select,"; normpath filepath]
   | darwin => Subprocess ["open"; "-R"; filepath]
   | other_platform => Subprocess ["xdg-open"; dirname filepath]
   end,
   match fault with
   | Some e =>
       messagebox showerror "Error" ("Could not open file location: " +:+ e) st
   | None => st
   end).

(** The test [display_entry] makes before it decodes an attachment. *)
Definition display_image_extensions : list string :=
  [".png"; ".jpg"; ".jpeg"; ".gif"; ".bmp"].

Definition is_image (pil : bool) (filepath : option string) : bool :=
  pil
  && match filepath with
     | Some p =>
         Py.truthy p && Py.endswith_any display_image_extensions (Py.lower p)
     | None => false
     end.

(** What the handlers write into a row: tags trimmed and in lower case;
    for a note a trimmed, non-empty content and no description; for a file
    a content without separator and a trimmed description. *)
Definition row_shaped (r : Row) : Prop :=
  (exists t, tags r = Some t /\ Py.lower t = t /\ Py.strip t = t)
  /\ match type r with
     | note =>
         Py.truthy (content r) = true /\ Py.strip (content r) = content r
         /\ description r = None
     | file =>
         Py.contains OsPath.sep (content r) = false
         /\ exists d, description r = Some d /\ Py.strip d = d
     end.

Definition rows_shaped (st : App) : Prop :=
  Forall row_shaped (rows (conn st)).

(** The statements a handler may have run, with the shape of a new row. *)
Inductive shaped_change (db : Conn) : Conn -> Prop :=
| shaped_same : shaped_change db db
| shaped_inserted utc ty c t fp d :
    row_shaped {| id := Db.next_rowid db; type := ty; content := c;
                  tags := Some t; filepath := fp;
                  timestamp := Clock.current_timestamp utc;
                  description := d |} ->
    shaped_change db (Db.insert utc ty c t fp d db)
| shaped_deleted i : shaped_change db (Db.delete_by_id i db).

(** No row carries an id above the AUTOINCREMENT counter. *)
Definition ids_bounded (st : App) : Prop :=
  Forall (fun r => id r <= seq (conn st)) (rows (conn st)).

(** ** Sample data *)

Module Scenario.

Definition noon : datetime :=
  {| year := 2026; month := 1; day := 1;
     hour := 12; minute := 0; second := 0; microsecond := 0 |}.

Definition empty_db : Conn := {| rows := []; seq := 0 |}.

(** The window on first start. *)
Definition fresh : App := startup empty_db ∅.

Definition home : string := "/home/u".

Definition photo : bytes := [x89; x50; x4e; x47; x0d; x0a].
Definition sketch : bytes := [x89; x50; x4e; x47; x1a; x0a].

(** The window on first start, with a picture waiting in /tmp. *)
Definition with_photo : App := startup empty_db {[ "/tmp/a.png" := photo ]}.

(** The picture has been added as a file entry. *)
Definition one_file : App := add_file home "/tmp/a.png" noon noon None with_photo.

(** The user fills in the note box and the tag box. *)
Definition typed (text tag : string) (st : App) : App :=
  set_tag_entry tag (set_note_text text (String.length text) st).

(** Two pictures called a.png wait in different directories. *)
Definition two_sources : App :=
  startup empty_db {[ "/tmp/a.png" := photo; "/mnt/a.png" := sketch ]}.

(** The same second, some microseconds later. *)
Definition noon_and (usec : N) : datetime :=
  {| year := 2026; month := 1; day := 1;
     hour := 12; minute := 0; second := 0; microsecond := usec |}.

Definition later (sec : N) : datetime :=
  {| year := 2026; month := 1; day := 1;
     hour := 12; minute := 0; second := sec; microsecond := 0 |}.

(** Three notes saved one second apart. *)
Definition notes : App :=
  add_note (later 3) (typed "Call Bob" "Work,Urgent"
    (add_note (later 2) (typed "abc" "work"
      (add_note (later 1) (typed "Buy milk" "Home,Shopping" fresh))))).

(** Two images pasted within one second. *)
Definition pasted_twice : App :=
  save_pasted_image_data home (noon_and 900000) noon None sketch
    (save_pasted_image_data home (noon_and 100) noon None photo fresh).

(** The user fills in the search box and the tag filter box. *)
Definition searching (term tag : string) (st : App) : App :=
  load_entries (set_tag_filter_entry tag (set_search_entry term st)).

End Scenario.

(** * Properties *)

(** ** Strings *)

Example strip_examples :
  Py.strip "  Buy milk  " = "Buy milk"
  /\ Py.strip (String Py.LF (String Py.CR "x")) = "x"
  /\ Py.strip "   " = EmptyString
  /\ Py.strip_char Py.QUOTE (String Py.QUOTE ("/tmp/a.png" +:+ String Py.QUOTE EmptyString))
     = "/tmp/a.png".
Proof. repeat split; reflexivity. Qed.

Example lower_example : Py.lower "Work,URGENT" = "work,urgent".
Proof. reflexivity. Qed.

Example splitext_examples :
  OsPath.splitext "a.png" = ("a", ".png")
  /\ OsPath.splitext ".bashrc" = (".bashrc", EmptyString)
  /\ OsPath.splitext "a.tar.gz" = ("a.tar", ".gz")
  /\ OsPath.splitext "..x" = ("..x", EmptyString)
  /\ OsPath.splitext "noext" = ("noext", EmptyString).
Proof. repeat split; reflexivity. Qed.

Example basename_examples :
  OsPath.basename "/tmp/in/a.png" = "a.png"
  /\ OsPath.basename "a.png" = "a.png"
  /\ OsPath.basename "/tmp/in/" = EmptyString.
Proof. repeat split; reflexivity. Qed.

Example join_examples :
  OsPath.join "/home/u" "BrainDumpApp" = "/home/u/BrainDumpApp"
  /\ OsPath.join "/home/u/" "x" = "/home/u/x"
  /\ OsPath.join "/home/u" "/abs" = "/abs"
  /\ FILES_DIR "/home/u" = "/home/u/BrainDumpApp/files".
Proof. repeat split; reflexivity. Qed.

Example like_examples :
  Sql.like "%milk%" "Buy MILK today" = true
  /\ Sql.like "a_c" "abc" = true
  /\ Sql.like "a_c" "ac" = false
  /\ Sql.like "%" EmptyString = true
  /\ Sql.like "%a%b%" "xxaxxbxx" = true
  /\ Sql.like "%a%b%" "xxbxxaxx" = false.
Proof. repeat split; reflexivity. Qed.

Example clock_examples :
  Clock.strftime_compact Scenario.noon = "20260101120000"
  /\ Clock.current_timestamp Scenario.noon = "2026-01-01 12:00:00".
Proof. repeat split; reflexivity. Qed.

Lemma rstrip_by_snoc (p : ascii -> bool) (c : ascii) (s : string) :
  p c = true ->
  Py.rstrip_by p (s +:+ String c EmptyString) = Py.rstrip_by p s.
Proof.
  intros Hc. induction s as [|a s IH]; simpl.
  - now rewrite Hc.
  - now rewrite IH.
Qed.

Lemma lstrip_by_snoc (p : ascii -> bool) (c : ascii) (s : string) :
  p c = true ->
  Py.lstrip_by p (s +:+ String c EmptyString) =
  match Py.lstrip_by p s with
  | EmptyString => EmptyString
  | r => r +:+ String c EmptyString
  end.
Proof.
  intros Hc. induction s as [|a s IH]; simpl.
  - now rewrite Hc.
  - destruct (p a); [exact IH | reflexivity].
Qed.

Lemma strip_by_snoc (p : ascii -> bool) (c : ascii) (s : string) :
  p c = true ->
  Py.strip_by p (s +:+ String c EmptyString) = Py.strip_by p s.
Proof.
  intros Hc. unfold Py.strip_by. rewrite lstrip_by_snoc by exact Hc.
  destruct (Py.lstrip_by p s) as [|a r] eqn:E; [reflexivity|].
  now apply rstrip_by_snoc.
Qed.

(** The newline Tk appends to the text of the note box is stripped away. *)
Lemma strip_text_get (s : string) : Py.strip (Tk.text_get s) = Py.strip s.
Proof. unfold Py.strip, Tk.text_get. now apply strip_by_snoc. Qed.

(** ** Rows and rowids *)

Lemma max_rowid_ge (t : list Row) (r : Row) :
  In r t -> id r <= Db.max_rowid t.
Proof.
  induction t as [|x t IH]; simpl; [tauto|].
  intros [->|H]; [lia|]. specialize (IH H). lia.
Qed.

Lemma next_rowid_fresh (db : Conn) (r : Row) :
  In r (rows db) -> id r <> Db.next_rowid db.
Proof.
  intros H%max_rowid_ge. unfold Db.next_rowid. lia.
Qed.

Lemma find_app_fresh (i : Z) (t : list Row) (r : Row) :
  (forall x, In x t -> id x <> i) -> id r = i ->
  List.find (fun x => id x =? i) (t ++ [r]) = Some r.
Proof.
  intros Hfresh Hr. induction t as [|x t IH]; simpl.
  - now rewrite Hr, Z.eqb_refl.
  - destruct (Z.eqb_spec (id x) i) as [E|_].
    + exfalso. apply (Hfresh x); [now left | exact E].
    + apply IH. intros y Hy. apply Hfresh. now right.
Qed.

Lemma fetchone_absent (i : Z) (db : Conn) :
  Forall (fun r => id r <> i) (rows db) -> Db.fetchone_by_id i db = None.
Proof.
  unfold Db.fetchone_by_id. induction 1 as [|x t Hx _ IH]; simpl; [reflexivity|].
  destruct (Z.eqb_spec (id x) i); [contradiction | exact IH].
Qed.

Lemma fetchone_after_delete (i : Z) (db : Conn) :
  Db.fetchone_by_id i (Db.delete_by_id i db) = None.
Proof.
  apply fetchone_absent. simpl. apply List.Forall_forall.
  intros r [_ Hr]%filter_In. now destruct (Z.eqb_spec (id r) i).
Qed.

(** The listing never touches the database, the disk or the messages. *)
Lemma load_entries_conn (st : App) : conn (load_entries st) = conn st.
Proof. reflexivity. Qed.

(** ** Saving a note *)

(** The rows [add_note] leaves behind: none on an empty note, one otherwise. *)
Lemma add_note_unfold (utc : datetime) (st : App) :
  add_note utc st =
  if Py.truthy (Py.strip (note_text st)) then
    load_entries
      (clear_inputs
         (set_conn (Db.insert utc note (Py.strip (note_text st))
                              (Py.lower (Py.strip (tag_entry st)))
                              None None (conn st)) st))
  else messagebox showwarning "Empty Note" "Cannot save an empty note." st.
Proof.
  unfold add_note. rewrite strip_text_get.
  now destruct (Py.truthy (Py.strip (note_text st))).
Qed.

(** C5 (amended). A note whose text is empty after trimming is refused with
    the "Empty Note" warning and the database is left as it was; otherwise
    exactly one row is appended, of type note, with NULL filepath and
    description, and with the tag box trimmed and then lowercased. *)
Theorem add_note_validates (utc : datetime) (st : App) :
  let st' := add_note utc st in
  if Py.truthy (Py.strip (note_text st)) then
    rows (conn st') =
      rows (conn st) ++
      [ {| id := Db.next_rowid (conn st); type := note;
           content := Py.strip (note_text st);
           tags := Some (Py.lower (Py.strip (tag_entry st)));
           filepath := None;
           timestamp := Clock.current_timestamp utc;
           description := None |} ]
    /\ messages st' = messages st
  else
    conn st' = conn st
    /\ length (rows (conn st')) = length (rows (conn st))
    /\ messages st' =
         messages st ++
         [ {| box := showwarning; title := "Empty Note";
              message := "Cannot save an empty note." |} ].
Proof.
  cbv zeta. rewrite add_note_unfold.
  destruct (Py.truthy (Py.strip (note_text st))); simpl; auto.
Qed.

(** C5, as stated, fails: tags typed with surrounding blanks are stored
    trimmed, which is not the tag string lowercased. *)
Lemma add_note_tags_counterexample :
  let st := Scenario.typed "x" " Work " Scenario.fresh in
  exists r,
    rows (conn (add_note Scenario.noon st)) = [r]
    /\ tags r = Some "work"
    /\ Py.lower (tag_entry st) = " work "
    /\ tags r <> Some (Py.lower (tag_entry st)).
Proof.
  eexists. repeat split; try reflexivity. discriminate.
Qed.

(** C8 (amended). When the note box is not blank, saving it and then
    selecting the row AUTOINCREMENT has just assigned shows an entry with
    the trimmed text as content, the trimmed and lowercased tag box as tags,
    and type note. *)
Theorem add_note_then_select (utc : datetime) (st : App) :
  Py.truthy (Py.strip (note_text st)) = true ->
  let new_id := Db.next_rowid (conn st) in
  let st' := add_note utc st in
  exists entry,
    display (on_entry_select [new_id] st') = Viewing new_id entry
    /\ id entry = new_id
    /\ content entry = Py.strip (note_text st)
    /\ tags entry = Some (Py.lower (Py.strip (tag_entry st)))
    /\ type entry = note.
Proof.
  intros Hne. cbv zeta. rewrite add_note_unfold, Hne.
  unfold on_entry_select. rewrite load_entries_conn. cbn [clear_inputs].
  unfold Db.fetchone_by_id; simpl.
  rewrite find_app_fresh; [| intros x Hx; now apply next_rowid_fresh | reflexivity].
  eexists. repeat split; reflexivity.
Qed.

Lemma add_note_then_select_witness :
  exists entry,
    display (on_entry_select [1]
               (add_note Scenario.noon
                  (Scenario.typed "Buy milk" "Home,TODO" Scenario.fresh)))
    = Viewing 1 entry
    /\ id entry = 1
    /\ content entry = "Buy milk"
    /\ tags entry = Some "home,todo"
    /\ type entry = note.
Proof.
  exact (add_note_then_select Scenario.noon
           (Scenario.typed "Buy milk" "Home,TODO" Scenario.fresh) eq_refl).
Defined.

(** C8, as stated, fails: a note typed with surrounding blanks is not read
    back with the same content. *)
Lemma add_note_roundtrip_counterexample :
  let st := Scenario.typed " a " "t" Scenario.fresh in
  exists entry,
    display (on_entry_select [1] (add_note Scenario.noon st)) = Viewing 1 entry
    /\ content entry = "a"
    /\ content entry <> note_text st.
Proof.
  eexists. repeat split; try reflexivity. discriminate.
Qed.

(** ** Selecting an entry *)

(** C3 (amended). Selecting an id that no row carries changes nothing: the
    display stays as it was and no message is shown. *)
Theorem select_missing_is_silent (entry_id : Z) (rest : list Z) (st : App) :
  Forall (fun r => id r <> entry_id) (rows (conn st)) ->
  on_entry_select (entry_id :: rest) st = st.
Proof.
  intros H. unfold on_entry_select. now rewrite fetchone_absent.
Qed.

Lemma select_missing_is_silent_witness :
  on_entry_select [7; 1] Scenario.one_file = Scenario.one_file.
Proof.
  apply (select_missing_is_silent 7 [1] Scenario.one_file).
  repeat constructor. discriminate.
Defined.

(** C3, as stated, fails: on a database without row 7, selecting 7 reports
    nothing at all. *)
Lemma select_missing_counterexample :
  Db.fetchone_by_id 7 (conn Scenario.fresh) = None
  /\ messages (on_entry_select [7] Scenario.fresh) = []
  /\ on_entry_select [7] Scenario.fresh = Scenario.fresh.
Proof. repeat split; reflexivity. Qed.

(** ** Deleting an entry *)

Lemma delete_entry_conn (fault : option string) (entry_id : Z) (st : App) :
  conn (delete_entry true fault entry_id st) = Db.delete_by_id entry_id (conn st).
Proof.
  unfold delete_entry; simpl.
  destruct (Db.fetchone_by_id entry_id (conn st)) as [entry|]; [|reflexivity].
  destruct (type entry), (filepath entry) as [p|]; try reflexivity.
  destruct (Py.truthy p && Fs.exists_ p (disk st)); [|reflexivity].
  now destruct fault.
Qed.

(** C6 (amended). Once the user has confirmed, deleting an existing entry
    removes its row, so that selecting the id afterwards finds nothing and
    shows nothing; for a file entry whose attachment is on disk, a failure
    to remove the attachment is reported in a "File Error" message, leaves
    the disk as it was, and the row is removed all the same; without a
    failure the attachment is gone. *)
Theorem delete_entry_removes_row
        (fault : option string) (entry_id : Z) (st : App) (entry : Row) :
  Db.fetchone_by_id entry_id (conn st) = Some entry ->
  let st' := delete_entry true fault entry_id st in
  rows (conn st') =
    List.filter (fun r => negb (id r =? entry_id)) (rows (conn st))
  /\ Db.fetchone_by_id entry_id (conn st') = None
  /\ on_entry_select [entry_id] st' = st'
  /\ (forall p,
        type entry = file -> filepath entry = Some p ->
        Py.truthy p && Fs.exists_ p (disk st) = true ->
        match fault with
        | Some e =>
            disk st' = disk st
            /\ messages st' =
                 messages st ++
                 [ {| box := showerror; title := "File Error";
                      message := "Failed to delete file: " +:+ e
                                 +:+ ". The database entry will still be removed." |} ]
        | None => disk st' !! p = None /\ messages st' = messages st
        end).
Proof.
  intros Hrow. cbv zeta.
  assert (Hnone : Db.fetchone_by_id entry_id
                    (conn (delete_entry true fault entry_id st)) = None)
    by (rewrite delete_entry_conn; apply fetchone_after_delete).
  split; [now rewrite delete_entry_conn|].
  split; [exact Hnone|].
  split; [unfold on_entry_select; now rewrite Hnone|].
  intros p Hty Hfp Hon. unfold delete_entry; simpl.
  rewrite Hrow, Hty, Hfp, Hon.
  destruct fault as [e|]; simpl; split; try reflexivity.
  apply lookup_delete_eq.
Qed.

Lemma delete_entry_removes_row_witness :
  let st' := delete_entry true (Some "Permission denied") 1 Scenario.one_file in
  rows (conn st') = []
  /\ Db.fetchone_by_id 1 (conn st') = None
  /\ on_entry_select [1] st' = st'
  /\ disk st' = disk Scenario.one_file
  /\ map title (messages st') = ["File Error"].
Proof.
  destruct (delete_entry_removes_row (Some "Permission denied") 1
              Scenario.one_file _ eq_refl) as (Hrows & Hfetch & Hsel & Hfile).
  destruct (Hfile _ eq_refl eq_refl eq_refl) as [Hdisk Hmsg].
  cbv zeta. split; [exact Hrows|]. split; [exact Hfetch|].
  split; [exact Hsel|]. split; [exact Hdisk|]. now rewrite Hmsg.
Defined.

(** C6, as stated, fails: after the deletion, selecting the id raises no
    NotFound, it shows no message and leaves the welcome text in place; and
    when the user answers no to the confirmation, the row of the existing
    entry is not removed at all. *)
Lemma delete_then_select_counterexample :
  let st' := delete_entry true None 1 Scenario.one_file in
  Db.fetchone_by_id 1 (conn Scenario.one_file) <> None
  /\ Db.fetchone_by_id 1 (conn st') = None
  /\ messages (on_entry_select [1] st') = []
  /\ display (on_entry_select [1] st') = Welcome
  /\ delete_entry false None 1 Scenario.one_file = Scenario.one_file.
Proof. repeat split; try reflexivity. discriminate. Qed.

(** ** The preview column *)

Lemma append_cons (a : ascii) (s t : string) :
  String a s +:+ t = String a (s +:+ t).
Proof. reflexivity. Qed.

Lemma append_empty_r (s : string) : s +:+ EmptyString = s.
Proof.
  induction s as [|a s IH]; [reflexivity | now rewrite append_cons, IH].
Qed.

Lemma append_assoc (a b c : string) : (a +:+ b) +:+ c = a +:+ b +:+ c.
Proof.
  induction a as [|x a IH]; [reflexivity | now rewrite !append_cons, IH].
Qed.

Lemma length_take (n : nat) (s : string) : (String.length (Py.take n s) <= n)%nat.
Proof.
  revert s. induction n as [|n IH]; intros [|c s]; simpl; try lia.
  specialize (IH s). lia.
Qed.

Lemma remove_absent (ch : ascii) (s : string) :
  Py.contains ch s = false -> Py.remove ch s = s.
Proof.
  induction s as [|c s IH]; simpl; [reflexivity|].
  destruct (Ascii.eqb c ch); simpl; [discriminate|].
  intros H. now rewrite IH.
Qed.

(** [split_head] is the text before the first occurrence of [ch]. *)
Lemma split_head_spec (ch : ascii) (s : string) :
  Py.contains ch (Py.split_head ch s) = false
  /\ (if Py.contains ch s
      then exists rest, s = Py.split_head ch s +:+ String ch rest
      else s = Py.split_head ch s).
Proof.
  induction s as [|c s [IH1 IH2]]; simpl; [split; reflexivity|].
  destruct (Ascii.eqb_spec c ch) as [->|Hne]; simpl.
  - split; [reflexivity|]. now exists s.
  - apply Ascii.eqb_neq in Hne. rewrite Hne; simpl. split; [exact IH1|].
    destruct (Py.contains ch s).
    + destruct IH2 as [rest Hr]. exists rest. now rewrite Hr at 1.
    + now rewrite IH2 at 1.
Qed.

(** C4 (amended). The preview of a note is its first line (the text before
    the first line feed) with the carriage returns removed and then cut to
    at most 50 characters, followed by "..." exactly when the content is
    longer than 50 characters or holds a line feed; where the first line
    holds no carriage return this is the first line cut to 50 characters.
    The preview of a file entry is its content, the stored base name. *)
Theorem preview_spec (c : string) :
  let first_line := Py.split_head Py.LF c in
  let body := Py.take 50 (Py.remove Py.CR first_line) in
  let ellipsis :=
    if (50 <? Py.len c) || Py.contains Py.LF c then "..." else EmptyString in
  (Py.contains Py.LF first_line = false
   /\ if Py.contains Py.LF c
      then exists rest, c = first_line +:+ String Py.LF rest
      else c = first_line)
  /\ preview note c = body +:+ ellipsis
  /\ (String.length body <= 50)%nat
  /\ (Py.contains Py.CR first_line = false -> body = Py.take 50 first_line)
  /\ preview file c = c.
Proof.
  cbv zeta. split; [apply split_head_spec|].
  split; [|split; [apply length_take | split]].
  - unfold preview. rewrite Z.gtb_ltb.
    destruct ((50 <? Py.len c) || Py.contains Py.LF c); [reflexivity|].
    now rewrite append_empty_r.
  - intros H. now rewrite remove_absent.
  - reflexivity.
Qed.

Lemma preview_spec_witness :
  Py.take 50 (Py.remove Py.CR (Py.split_head Py.LF "Buy milk")) =
  Py.take 50 (Py.split_head Py.LF "Buy milk").
Proof.
  exact (proj1 (proj2 (proj2 (proj2 (preview_spec "Buy milk")))) eq_refl).
Defined.

(** C4, as stated, fails: a carriage return inside the first line is
    dropped, so the preview is not the first line. *)
Lemma preview_counterexample :
  let c := String "a" (String Py.CR (String "b" EmptyString)) in
  Py.split_head Py.LF c = c
  /\ preview note c = "ab"
  /\ preview note c <> Py.take 50 (Py.split_head Py.LF c).
Proof. repeat split; try reflexivity. discriminate. Qed.

(** The example of the specification: 52 letters give the first 50 and an
    ellipsis. *)
Example preview_alphabet_twice :
  preview note "abcdefghijklmnopqrstuvwxyzabcdefghijklmnopqrstuvwxyz"
  = "abcdefghijklmnopqrstuvwxyzabcdefghijklmnopqrstuvwx...".
Proof. reflexivity. Qed.

(** ** The order of the listing *)

Lemma string_leb_refl (s : string) : String.leb s s = true.
Proof. now destruct (String.leb_total s s). Qed.

Lemma ascii_compare_lt_trans (a b c : ascii) :
  Ascii.compare a b = Lt -> Ascii.compare b c = Lt -> Ascii.compare a c = Lt.
Proof.
  unfold Ascii.compare. rewrite !N.compare_lt_iff. lia.
Qed.

Lemma string_leb_trans (a b c : string) :
  String.leb a b = true -> String.leb b c = true -> String.leb a c = true.
Proof.
  unfold String.leb. revert b c.
  induction a as [|x a IH]; intros [|y b] [|z c]; simpl; try congruence.
  destruct (Ascii.compare x y) eqn:Exy; try congruence;
    destruct (Ascii.compare y z) eqn:Eyz; try congruence;
    try apply Ascii.compare_eq_iff in Exy; try apply Ascii.compare_eq_iff in Eyz;
    subst; try rewrite Exy; try rewrite Eyz; try congruence.
  - rewrite (proj2 (N.compare_eq_iff _ _) eq_refl : Ascii.compare z z = Eq).
    apply IH.
  - now rewrite (ascii_compare_lt_trans x y z Exy Eyz).
Qed.

Lemma insert_sorted_In (x y : Row) (l : list Row) :
  In y (Db.insert_sorted x l) <-> y = x \/ In y l.
Proof.
  induction l as [|z l IH]; simpl; [intuition|].
  destruct (Db.ts_ge x z); simpl; rewrite ?IH; intuition.
Qed.

Lemma insert_sorted_strongly (x : Row) (l : list Row) :
  StronglySorted Db.newer_or_equal l ->
  StronglySorted Db.newer_or_equal (Db.insert_sorted x l).
Proof.
  induction 1 as [|z l Hl IH Hz]; simpl.
  - repeat constructor.
  - destruct (Db.ts_ge x z) eqn:E.
    + constructor; [now constructor|].
      constructor; [exact E|].
      eapply List.Forall_impl; [|exact Hz]. intros w Hw.
      unfold Db.newer_or_equal, Db.ts_ge in *.
      eapply string_leb_trans; eassumption.
    + constructor; [exact IH|].
      apply List.Forall_forall. intros w [->|Hw]%insert_sorted_In.
      * unfold Db.newer_or_equal, Db.ts_ge in *.
        destruct (String.leb_total (timestamp x) (timestamp z)); congruence.
      * now apply (proj1 (List.Forall_forall _ _) Hz).
Qed.

Lemma order_by_strongly_sorted (l : list Row) :
  StronglySorted Db.newer_or_equal (Db.order_by_timestamp_desc l).
Proof.
  induction l as [|x l IH]; simpl; [constructor | now apply insert_sorted_strongly].
Qed.

Lemma insert_sorted_perm (x : Row) (l : list Row) :
  Permutation (x :: l) (Db.insert_sorted x l).
Proof.
  induction l as [|z l IH]; simpl; [reflexivity|].
  destruct (Db.ts_ge x z); [reflexivity|].
  rewrite perm_swap. now constructor.
Qed.

Lemma order_by_perm (l : list Row) :
  Permutation l (Db.order_by_timestamp_desc l).
Proof.
  induction l as [|x l IH]; simpl; [constructor|].
  rewrite <- insert_sorted_perm. now constructor.
Qed.

Lemma insert_sorted_stamped (ts : string) (x : Row) (l : list Row) :
  List.filter (Db.stamped ts) (Db.insert_sorted x l) =
  List.filter (Db.stamped ts) (x :: l).
Proof.
  induction l as [|z l IH]; [reflexivity|].
  cbn [Db.insert_sorted]. destruct (Db.ts_ge x z) eqn:E; [reflexivity|].
  cbn [List.filter] in *. rewrite IH.
  destruct (Db.stamped ts x) eqn:Ex, (Db.stamped ts z) eqn:Ez; try reflexivity.
  exfalso. unfold Db.stamped in *.
  apply String.eqb_eq in Ex, Ez. unfold Db.ts_ge in E.
  rewrite Ex, Ez, string_leb_refl in E. discriminate.
Qed.

(** The sort is stable: rows with one timestamp keep their order. *)
Lemma order_by_stable (ts : string) (l : list Row) :
  List.filter (Db.stamped ts) (Db.order_by_timestamp_desc l) =
  List.filter (Db.stamped ts) l.
Proof.
  induction l as [|x l IH]; [reflexivity|].
  cbn [Db.order_by_timestamp_desc fold_right].
  rewrite insert_sorted_stamped. cbn [List.filter].
  fold (Db.order_by_timestamp_desc l). now rewrite IH.
Qed.

Lemma strongly_sorted_filter {A : Type} (R : A -> A -> Prop) (f : A -> bool)
      (l : list A) :
  StronglySorted R l -> StronglySorted R (List.filter f l).
Proof.
  induction 1 as [|x l Hl IH Hx]; simpl; [constructor|].
  destruct (f x); [|exact IH]. constructor; [exact IH|].
  apply List.Forall_forall. intros y [Hy _]%filter_In.
  now apply (proj1 (List.Forall_forall _ _) Hx).
Qed.

(** C1 (amended). The listing shows the selected rows by timestamp
    descending. The query names no second key: rows with equal timestamps
    stay in the order of the table, so that on a table in rowid order they
    appear with ascending ids, the oldest insertion first. *)
Theorem load_entries_order (st : App) :
  let keep := fun r =>
    Sql.is_true
      (Db.where_all (where_clauses (Py.strip (search_entry st))
                                   (Py.lower (Py.strip (tag_filter_entry st)))) r) in
  let listed := fetchall st in
  tree (load_entries st) = map tree_item listed
  /\ StronglySorted Db.newer_or_equal listed
  /\ Permutation (List.filter keep (rows (conn st))) listed
  /\ (forall ts,
        List.filter (Db.stamped ts) listed =
        List.filter (Db.stamped ts) (List.filter keep (rows (conn st))))
  /\ (table_ordered st ->
      forall ts,
        StronglySorted (fun a b => id a < id b)
                       (List.filter (Db.stamped ts) listed)).
Proof.
  cbv zeta. unfold fetchall, Db.select_ordered.
  split; [reflexivity|].
  split; [apply order_by_strongly_sorted|].
  split; [apply order_by_perm|].
  split; [intros ts; apply order_by_stable|].
  intros Hsorted ts. rewrite order_by_stable.
  now do 2 apply strongly_sorted_filter.
Qed.

Lemma load_entries_order_witness :
  let st := add_note Scenario.noon
              (Scenario.typed "second" EmptyString
                 (add_note Scenario.noon
                    (Scenario.typed "first" EmptyString Scenario.fresh))) in
  StronglySorted (fun a b => id a < id b)
                 (List.filter (Db.stamped "2026-01-01 12:00:00") (fetchall st)).
Proof.
  cbv zeta.
  refine (proj2 (proj2 (proj2 (proj2
           (load_entries_order
              (add_note Scenario.noon
                 (Scenario.typed "second" EmptyString
                    (add_note Scenario.noon
                       (Scenario.typed "first" EmptyString Scenario.fresh))))))))
           _ _).
  repeat constructor.
Defined.

(** C1, as stated, fails: two notes saved within one second carry the same
    timestamp and are listed with the older id first. *)
Lemma listing_ties_counterexample :
  let st1 := add_note Scenario.noon (Scenario.typed "first" EmptyString Scenario.fresh) in
  let st2 := add_note Scenario.noon (Scenario.typed "second" EmptyString st1) in
  map timestamp (rows (conn st2)) = ["2026-01-01 12:00:00"; "2026-01-01 12:00:00"]
  /\ map id (rows (conn st2)) = [1; 2]
  /\ map iid (tree st2) = [1; 2]
  /\ map iid (tree st2) <> [2; 1].
Proof. repeat split; try reflexivity. discriminate. Qed.

(** ** The filters of the listing *)

Lemma like_percent (p s : string) :
  Sql.like (String Sql.percent p) s =
  Sql.like p s
  || match s with
     | EmptyString => false
     | String _ s' => Sql.like (String Sql.percent p) s'
     end.
Proof. destruct s; reflexivity. Qed.

Lemma like_literal (c : ascii) (p s : string) :
  Ascii.eqb c Sql.percent = false -> Ascii.eqb c Sql.underscore = false ->
  Sql.like (String c p) s =
  match s with
  | EmptyString => false
  | String d s' => Sql.char_eq_nocase c d && Sql.like p s'
  end.
Proof. intros H1 H2. simpl. now rewrite H1, H2. Qed.





Lemma append_empty_inv (a b : string) :
  a +:+ b = EmptyString -> a = EmptyString /\ b = EmptyString.
Proof. destruct a; [now split | discriminate]. Qed.

(** [prefix_nocase] and [contains_nocase] say what their names say. *)
Lemma prefix_nocase_spec (t s : string) :
  Spec.prefix_nocase t s = true <->
  exists mid post, s = mid +:+ post /\ Spec.fold mid = Spec.fold t.
Proof.
  revert s. induction t as [|a t IH]; intros s.
  - split; [intros _; now exists EmptyString, s | reflexivity].
  - destruct s as [|c s]; simpl.
    + split; [discriminate|]. intros (mid & post & Hs & Hf).
      symmetry in Hs. apply append_empty_inv in Hs as [-> _]. discriminate.
    + unfold Sql.char_eq_nocase. rewrite andb_true_iff, Ascii.eqb_eq, IH. split.
      * intros (Hac & mid & post & -> & Hf).
        exists (String c mid), post. split; [reflexivity|]. simpl. congruence.
      * intros (mid & post & Hs & Hf). destruct mid as [|m mid]; [discriminate|].
        rewrite append_cons in Hs. injection Hs as -> ->.
        simpl in Hf. injection Hf as Hm Hf. split; [congruence|].
        now exists mid, post.
Qed.

Lemma contains_nocase_spec (t s : string) :
  Spec.contains_nocase t s = true <->
  exists pre mid post, s = pre +:+ mid +:+ post /\ Spec.fold mid = Spec.fold t.
Proof.
  induction s as [|c s IH]; cbn [Spec.contains_nocase];
    rewrite orb_true_iff, prefix_nocase_spec.
  - split.
    + intros [(mid & post & Hs & Hf)|]; [|discriminate].
      now exists EmptyString, mid, post.
    + intros (pre & mid & post & Hs & Hf). left.
      symmetry in Hs. apply append_empty_inv in Hs as [-> Hs].
      exists mid, post. now rewrite Hs.
  - rewrite IH. split.
    + intros [(mid & post & Hs & Hf)|(pre & mid & post & -> & Hf)].
      * now exists EmptyString, mid, post.
      * now exists (String c pre), mid, post.
    + intros (pre & mid & post & Hs & Hf). destruct pre as [|p pre].
      * left. now exists mid, post.
      * right. rewrite append_cons in Hs. injection Hs as -> ->.
        now exists pre, mid, post.
Qed.

(** What the assembled WHERE clause computes, wildcards included. *)
Lemma where_clauses_like (S T : string) (r : Row) :
  Sql.is_true (Db.where_all (where_clauses S T) r) =
  (negb (Py.truthy S)
   || Sql.like ("%" +:+ S +:+ "%") (content r)
   || match description r with
      | Some d => Sql.like ("%" +:+ S +:+ "%") d
      | None => false
      end)
  && (negb (Py.truthy T)
      || match tags r with
         | Some t => Sql.like ("%" +:+ T +:+ "%") t
         | None => false
         end).
Proof.
  unfold where_clauses.
  destruct (Py.truthy S), (Py.truthy T);
    cbn [app Db.where_all fold_right negb orb];
    destruct (description r) as [d|], (tags r) as [t|];
    cbn [Sql.like_op];
    generalize (Sql.like ("%" +:+ S +:+ "%")) (Sql.like ("%" +:+ T +:+ "%"));
    intros likeS likeT;
    destruct (likeS (content r));
    try destruct (likeS d); try destruct (likeT t); reflexivity.
Qed.





(** The examples of the specification. *)
Example search_milk :
  map content (fetchall (Scenario.searching "milk" EmptyString Scenario.notes)) = ["Buy milk"]
  /\ map content (fetchall (Scenario.searching "MILK" EmptyString Scenario.notes)) = ["Buy milk"]
  /\ fetchall (Scenario.searching "bread" EmptyString Scenario.notes) = [].
Proof. repeat split; reflexivity. Qed.

Example tag_filter_urg :
  map tags (fetchall (Scenario.searching EmptyString "urg" Scenario.notes))
  = [Some "work,urgent"].
Proof. reflexivity. Qed.

Example no_filter_lists_all :
  map iid (tree (Scenario.searching "  " EmptyString Scenario.notes)) = [3; 2; 1].
Proof. reflexivity. Qed.

(** ** Paths *)

Lemma contains_app (ch : ascii) (a b : string) :
  Py.contains ch (a +:+ b) = Py.contains ch a || Py.contains ch b.
Proof.
  induction a as [|c a IH]; [reflexivity|].
  rewrite append_cons. simpl. now rewrite IH, orb_assoc.
Qed.

Lemma startswith_sep_absent (name : string) :
  Py.contains OsPath.sep name = false -> Py.startswith "/" name = false.
Proof.
  destruct name as [|c name]; [reflexivity|].
  cbn [Py.contains Py.startswith].
  intros [H _]%orb_false_elim. rewrite Ascii.eqb_sym.
  change (Ascii.eqb c OsPath.sep && true = false). now rewrite H.
Qed.

Lemma rev_onto_app (a b acc : string) :
  Py.rev_onto (a +:+ b) acc = Py.rev_onto b (Py.rev_onto a acc).
Proof.
  revert acc. induction a as [|c a IH]; intros acc; [reflexivity|].
  rewrite append_cons. simpl. apply IH.
Qed.

Lemma files_dir_shape (home : string) :
  exists parent, FILES_DIR home = parent +:+ "files".
Proof.
  unfold FILES_DIR, OsPath.join. cbn [Py.startswith Ascii.eqb Bool.eqb andb].
  destruct (negb (Py.truthy (APP_DIR home)) || Py.endswith "/" (APP_DIR home)).
  - now exists (APP_DIR home).
  - exists (APP_DIR home +:+ "/"). now rewrite append_assoc.
Qed.

(** Joining a plain name to the attachment directory puts a slash between
    the two. *)
Lemma join_files_dir (home name : string) :
  Py.contains OsPath.sep name = false ->
  OsPath.join (FILES_DIR home) name = FILES_DIR home +:+ "/" +:+ name.
Proof.
  intros Hname. unfold OsPath.join.
  rewrite (startswith_sep_absent name Hname).
  destruct (files_dir_shape home) as [parent ->].
  assert (Htruthy : Py.truthy (parent +:+ "files") = true)
    by (destruct parent; reflexivity).
  assert (Hend : Py.endswith "/" (parent +:+ "files") = false)
    by (unfold Py.endswith; now rewrite rev_onto_app).
  now rewrite Htruthy, Hend.
Qed.

Lemma basename_no_sep (p : string) :
  Py.contains OsPath.sep (OsPath.basename p) = false.
Proof.
  induction p as [|c p IH]; [reflexivity|]. simpl.
  destruct (Py.contains OsPath.sep p) eqn:E; [exact IH|].
  destruct (Ascii.eqb c OsPath.sep) eqn:Ec; [exact E|].
  simpl. now rewrite Ec, E.
Qed.

Lemma splitext_from_app (seen : bool) (name base ext : string) :
  OsPath.splitext_from seen name = (base, ext) -> name = base +:+ ext.
Proof.
  revert seen base ext. induction name as [|c name IH]; intros seen base ext; simpl.
  - now intros [= <- <-].
  - destruct (Ascii.eqb c OsPath.extsep && seen
              && negb (Py.contains OsPath.extsep name)).
    + now intros [= <- <-].
    + destruct (OsPath.splitext_from _ name) as [b e] eqn:E.
      intros [= <- <-]. rewrite append_cons. f_equal. now apply (IH _ _ _ E).
Qed.

Lemma digit_not_sep (n : N) : Ascii.eqb (Clock.digit n) OsPath.sep = false.
Proof.
  apply Ascii.eqb_neq. intros H. apply (f_equal N_of_ascii) in H.
  unfold Clock.digit in H.
  assert (Hlt : (n mod 10 < 10)%N) by (apply N.mod_lt; lia).
  rewrite N_ascii_embedding in H by lia.
  change (N_of_ascii OsPath.sep) with 47%N in H.
  clear Hlt. revert H. generalize (n mod 10)%N. intros m H. lia.
Qed.

Lemma zpad2_no_sep (n : N) : Py.contains OsPath.sep (Clock.zpad2 n) = false.
Proof. unfold Clock.zpad2. simpl. now rewrite !digit_not_sep. Qed.

Lemma zpad4_no_sep (n : N) : Py.contains OsPath.sep (Clock.zpad4 n) = false.
Proof.
  unfold Clock.zpad4. cbn [Py.contains]. now rewrite !digit_not_sep, zpad2_no_sep.
Qed.

Lemma strftime_compact_no_sep (d : datetime) :
  Py.contains OsPath.sep (Clock.strftime_compact d) = false.
Proof.
  unfold Clock.strftime_compact.
  now rewrite !contains_app, zpad4_no_sep, !zpad2_no_sep.
Qed.

(** ** What the handlers do to the database *)

Lemma copy_file_to_storage_inside
      (home : string) (now : datetime) (fault : option string)
      (src name : string) (st st' : App) (p : option string) :
  copy_file_to_storage home now fault src name st = (p, st') ->
  Py.contains OsPath.sep name = false ->
  conn st' = conn st
  /\ match p with Some q => in_files_dir home q | None => True end.
Proof.
  unfold copy_file_to_storage. intros H Hname.
  destruct (OsPath.splitext name) as [base ext] eqn:Esplit.
  set (renamed := base +:+ "_" +:+ Clock.strftime_compact now +:+ ext) in H.
  assert (Hrenamed : Py.contains OsPath.sep renamed = false).
  { apply splitext_from_app in Esplit. subst name renamed.
    rewrite contains_app in Hname. apply orb_false_elim in Hname as [Hb He].
    now rewrite !contains_app, Hb, He, strftime_compact_no_sep. }
  destruct (Fs.exists_ (OsPath.join (FILES_DIR home) name) (disk st));
    match type of H with
    | context [Fs.copy2 ?f ?a ?b ?d] => destruct (Fs.copy2 f a b d)
    end;
    injection H as <- <-; (split; [reflexivity|]); try exact I.
  - exists renamed. split; [now apply join_files_dir | exact Hrenamed].
  - exists name. split; [now apply join_files_dir | exact Hname].
Qed.

(** A stored attachment is never the file it was copied from. *)
Lemma copy_file_to_storage_not_source
      (home : string) (now : datetime) (fault : option string)
      (src name : string) (st st' : App) (p : string) :
  copy_file_to_storage home now fault src name st = (Some p, st') -> p <> src.
Proof.
  unfold copy_file_to_storage. intros H Hp.
  destruct (OsPath.splitext name) as [base ext].
  match type of H with
  | context [Fs.copy2 fault src ?d (disk st)] =>
      generalize dependent d; intros dst H
  end.
  unfold Fs.copy2 in H.
  destruct (disk st !! src); [|discriminate].
  destruct (String.eqb_spec src dst); [discriminate|].
  destruct fault; [discriminate|].
  injection H as H _. congruence.
Qed.

Lemma store_file_db_change
      (home : string) (now utc : datetime) (fault : option string)
      (path : string) (st : App) :
  db_change home (conn st) (conn (store_file home now utc fault path st)).
Proof.
  unfold store_file.
  destruct (copy_file_to_storage home now fault path (OsPath.basename path) st)
    as [p st1] eqn:E.
  apply copy_file_to_storage_inside in E as [Hconn Hp];
    [|apply basename_no_sep].
  destruct p as [q|]; simpl; [|rewrite Hconn; constructor].
  destruct (Py.truthy q); simpl; [|rewrite Hconn; constructor].
  rewrite Hconn. constructor. now exists q.
Qed.

Lemma save_pasted_image_data_db_change
      (home : string) (now utc : datetime) (fault : option string)
      (im : bytes) (st : App) :
  db_change home (conn st)
            (conn (save_pasted_image_data home now utc fault im st)).
Proof.
  unfold save_pasted_image_data, Fs.save.
  destruct fault; simpl; constructor.
  eexists. split; [reflexivity|].
  exists ("paste_" +:+ Clock.strftime_compact now +:+ ".png").
  assert (Hname : Py.contains OsPath.sep
                    ("paste_" +:+ Clock.strftime_compact now +:+ ".png") = false)
    by now rewrite !contains_app, strftime_compact_no_sep.
  split; [now apply join_files_dir | exact Hname].
Qed.

Lemma paste_text_db_change
      (home : string) (clip : ClipText) (now utc : datetime)
      (fault : option string) (st : App) :
  db_change home (conn st) (conn (paste_text home clip now utc fault st)).
Proof.
  unfold paste_text. destruct clip as [text| |e]; try constructor.
  destruct (Py.truthy text); simpl; [|constructor].
  match goal with |- context [if ?b then _ else _] => destruct b end.
  - apply store_file_db_change.
  - constructor.
Qed.

(** Every action leaves the database as it was, inserts one well-formed
    row, or deletes by id. *)
Lemma step_db_change (home : string) (pil : bool) (a : Action) (st : App) :
  db_change home (conn st) (conn (step home pil a st)).
Proof.
  destruct a; simpl; try constructor.
  - rewrite add_note_unfold.
    destruct (Py.truthy (Py.strip (note_text st))); simpl; now constructor.
  - unfold add_file. destruct (Py.truthy picked); simpl; [|constructor].
    apply store_file_db_change.
  - unfold paste_from_clipboard. destruct pil; simpl; [|constructor].
    destruct grab.
    + apply save_pasted_image_data_db_change.
    + apply paste_text_db_change.
    + apply paste_text_db_change.
    + destruct clip; try constructor. apply paste_text_db_change.
  - unfold on_entry_select. destruct selected_items as [|i sel]; [constructor|].
    destruct (Db.fetchone_by_id i (conn st)); constructor.
  - destruct askyesno; [|constructor].
    rewrite delete_entry_conn. constructor.
Qed.

(** ** The invariant *)

Lemma db_change_rows_ok (home : string) (db db' : Conn) :
  db_change home db db' ->
  Forall (row_ok home) (rows db) -> Forall (row_ok home) (rows db').
Proof.
  intros [|utc ty c t fp d Hfp|i] Hok; [exact Hok | |].
  - cbn [Db.insert rows]. apply Forall_app. split; [exact Hok|].
    constructor; [|constructor]. unfold row_ok. cbn [type filepath].
    exact Hfp.
  - cbn [Db.delete_by_id rows]. apply List.Forall_forall.
    intros r [Hr _]%filter_In.
    now apply (proj1 (List.Forall_forall _ _) Hok).
Qed.

Lemma strongly_sorted_snoc {A : Type} (R : A -> A -> Prop) (l : list A) (x : A) :
  StronglySorted R l -> List.Forall (fun y => R y x) l ->
  StronglySorted R (l ++ [x]).
Proof.
  induction 1 as [|y l Hl IH Hy]; intros Hx; simpl.
  - repeat constructor.
  - inversion Hx as [|? ? Hyx Hlx]; subst.
    constructor; [now apply IH|].
    apply Forall_app. split; [exact Hy | now repeat constructor].
Qed.

Lemma db_change_ordered (home : string) (db db' : Conn) :
  db_change home db db' ->
  StronglySorted (fun a b => id a < id b) (rows db) ->
  StronglySorted (fun a b => id a < id b) (rows db').
Proof.
  intros [|utc ty c t fp d _|i] Hs; [exact Hs | |].
  - cbn [Db.insert rows]. apply strongly_sorted_snoc; [exact Hs|].
    apply List.Forall_forall. intros r Hr%max_rowid_ge.
    cbn [id]. unfold Db.next_rowid. lia.
  - cbn [Db.delete_by_id rows]. now apply strongly_sorted_filter.
Qed.

(** C9. Every action of the user preserves the invariant: a row of type
    file has a file path directly inside the attachment directory, a row of
    type note has none. *)
Theorem step_preserves_store_ok
        (home : string) (pil : bool) (a : Action) (st : App) :
  store_ok home st -> store_ok home (step home pil a st).
Proof.
  unfold store_ok. apply db_change_rows_ok, step_db_change.
Qed.

Lemma step_preserves_store_ok_witness :
  store_ok Scenario.home
    (step Scenario.home true
          (AddFile "/tmp/a.png" Scenario.noon Scenario.noon None)
          Scenario.one_file).
Proof.
  apply (step_preserves_store_ok Scenario.home true
           (AddFile "/tmp/a.png" Scenario.noon Scenario.noon None)
           Scenario.one_file).
  repeat constructor. eexists. split; [reflexivity|].
  exists "a.png". split; reflexivity.
Defined.

(** From an empty database every run of the window keeps the invariant,
    and keeps the table in rowid order. *)
Lemma run_invariants (home : string) (pil : bool) (acts : list Action)
      (st : App) :
  store_ok home st /\ table_ordered st ->
  store_ok home (run home pil acts st)
  /\ table_ordered (run home pil acts st).
Proof.
  unfold run. revert st. induction acts as [|a acts IH]; intros st [Hok Hord];
    [now split|].
  cbn [fold_left]. apply IH. split.
  - eapply db_change_rows_ok; [apply step_db_change | exact Hok].
  - eapply db_change_ordered; [apply step_db_change | exact Hord].
Qed.

Corollary reachable_invariants (home : string) (pil : bool)
          (acts : list Action) (d : gmap string bytes) :
  let st := run home pil acts (startup Scenario.empty_db d) in
  store_ok home st /\ table_ordered st.
Proof.
  apply run_invariants. split; constructor.
Qed.

(** ** Attachments *)

Lemma length_append (a b : string) :
  String.length (a +:+ b) = (String.length a + String.length b)%nat.
Proof.
  induction a as [|c a IH]; [reflexivity|].
  rewrite append_cons. simpl. now rewrite IH.
Qed.

Lemma length_strftime_compact (d : datetime) :
  String.length (Clock.strftime_compact d) = 14%nat.
Proof. unfold Clock.strftime_compact. now rewrite !length_append. Qed.

(** What the collision branch of [copy_file_to_storage] achieves: the
    stored path lies in the attachment directory and differs from the path
    that was taken; when the renamed path is free as well, every file on
    disk keeps its bytes. *)
Lemma copy_file_to_storage_collision
      (home : string) (now : datetime) (src name : string) (b : bytes)
      (st : App) :
  Py.contains OsPath.sep name = false ->
  Fs.exists_ (OsPath.join (FILES_DIR home) name) (disk st) = true ->
  disk st !! src = Some b ->
  exists stored,
    in_files_dir home stored
    /\ stored <> OsPath.join (FILES_DIR home) name
    /\ (src <> stored ->
        copy_file_to_storage home now None src name st =
        (Some stored, set_disk (<[stored := b]> (disk st)) st))
    /\ (disk st !! stored = None ->
        forall q c, disk st !! q = Some c ->
                    (<[stored := b]> (disk st)) !! q = Some c).
Proof.
  intros Hname Hexists Hsrc.
  destruct (OsPath.splitext name) as [base ext] eqn:Esplit.
  set (renamed := base +:+ "_" +:+ Clock.strftime_compact now +:+ ext).
  assert (Hparts : name = base +:+ ext) by now apply splitext_from_app in Esplit.
  assert (Hrenamed : Py.contains OsPath.sep renamed = false).
  { subst name renamed. rewrite contains_app in Hname.
    apply orb_false_elim in Hname as [Hb He].
    now rewrite !contains_app, Hb, He, strftime_compact_no_sep. }
  exists (OsPath.join (FILES_DIR home) renamed).
  split; [exists renamed; split; [now apply join_files_dir | exact Hrenamed]|].
  split.
  - rewrite !join_files_dir by assumption. intros E.
    apply (f_equal String.length) in E.
    rewrite Hparts in E. unfold renamed in E.
    rewrite !length_append, length_strftime_compact in E. simpl in E. lia.
  - split.
    + intros Hne. unfold copy_file_to_storage, Fs.copy2.
      rewrite Hexists, Esplit. fold renamed. rewrite Hsrc.
      apply String.eqb_neq in Hne. now rewrite Hne.
    + intros Hfree q c Hq. rewrite lookup_insert_ne; [exact Hq|].
      intros <-. congruence.
Qed.

(** C2, at the failing input. Three files called a.png are added within one
    second. The first is stored as a.png, the second is renamed with the
    timestamp suffix, and the third is given the very same renamed path: it
    replaces the bytes of the second attachment, and two rows point at one
    file. *)
Theorem copy_file_to_storage_overwrites :
  let add src := add_file Scenario.home src Scenario.noon Scenario.noon None in
  let st2 := add "/mnt/a.png" (add "/tmp/a.png" Scenario.two_sources) in
  let st3 := add "/tmp/a.png" st2 in
  let renamed := "/home/u/BrainDumpApp/files/a_20260101120000.png" in
  map filepath (rows (conn st2)) =
    [Some "/home/u/BrainDumpApp/files/a.png"; Some renamed]
  /\ disk st2 !! renamed = Some Scenario.sketch
  /\ Fs.exists_ "/home/u/BrainDumpApp/files/a.png" (disk st2) = true
  /\ map filepath (rows (conn st3)) =
       [Some "/home/u/BrainDumpApp/files/a.png"; Some renamed; Some renamed]
  /\ disk st3 !! renamed = Some Scenario.photo
  /\ messages st3 = [].
Proof. cbv zeta. repeat split; vm_compute; reflexivity. Qed.

Lemma next_rowid_insert (utc : datetime) (ty : entry_type) (c t : string)
      (fp d : option string) (db : Conn) :
  Db.next_rowid db < Db.next_rowid (Db.insert utc ty c t fp d db).
Proof.
  unfold Db.insert. generalize (Db.next_rowid db). intros i.
  unfold Db.next_rowid. cbn [seq rows]. lia.
Qed.

Lemma strftime_same_second (a b : datetime) :
  Clock.same_second a b -> Clock.strftime_compact a = Clock.strftime_compact b.
Proof.
  intros (Hy & Hmo & Hd & Hh & Hmi & Hs). unfold Clock.strftime_compact.
  now rewrite Hy, Hmo, Hd, Hh, Hmi, Hs.
Qed.

(** C10. A pasted image is saved under paste_<stamp>.png, where the stamp
    is the clock reading cut to the second, and nothing checks whether that
    file exists: of two images pasted within one second the second replaces
    the bytes of the first, and both rows carry the same file path. *)
Theorem paste_same_second_overwrites
        (home : string) (t1 t2 u1 u2 : datetime) (im1 im2 : bytes) (st : App) :
  Clock.same_second t1 t2 ->
  let st1 := save_pasted_image_data home t1 u1 None im1 st in
  let st2 := save_pasted_image_data home t2 u2 None im2 st1 in
  let p := OsPath.join (FILES_DIR home)
                       ("paste_" +:+ Clock.strftime_compact t1 +:+ ".png") in
  disk st1 !! p = Some im1
  /\ disk st2 !! p = Some im2
  /\ exists r1 r2,
       rows (conn st2) = rows (conn st) ++ [r1; r2]
       /\ type r1 = file /\ type r2 = file
       /\ filepath r1 = Some p /\ filepath r2 = Some p
       /\ id r1 < id r2.
Proof.
  intros Hsame. cbv zeta. unfold save_pasted_image_data, Fs.save.
  rewrite <- (strftime_same_second t1 t2 Hsame).
  cbn [load_entries clear_inputs set_conn set_disk set_tree set_note_text
       set_tag_entry conn disk Db.insert rows].
  split; [apply lookup_insert_eq|]. split; [apply lookup_insert_eq|].
  do 2 eexists. split; [now rewrite <- app_assoc|].
  cbn [type filepath id seq]. repeat split.
  apply next_rowid_insert.
Qed.

Lemma paste_same_second_overwrites_witness :
  let st1 := save_pasted_image_data Scenario.home (Scenario.noon_and 100)
               Scenario.noon None Scenario.photo Scenario.fresh in
  let st2 := save_pasted_image_data Scenario.home (Scenario.noon_and 900000)
               Scenario.noon None Scenario.sketch st1 in
  let p := "/home/u/BrainDumpApp/files/paste_20260101120000.png" in
  disk st1 !! p = Some Scenario.photo
  /\ disk st2 !! p = Some Scenario.sketch
  /\ exists r1 r2,
       rows (conn st2) = [r1; r2]
       /\ type r1 = file /\ type r2 = file
       /\ filepath r1 = Some p /\ filepath r2 = Some p
       /\ id r1 < id r2.
Proof.
  apply (paste_same_second_overwrites Scenario.home
           (Scenario.noon_and 100) (Scenario.noon_and 900000)
           Scenario.noon Scenario.noon Scenario.photo Scenario.sketch
           Scenario.fresh).
  repeat split.
Defined.

(** * Further properties of the handlers *)

(** ** Adding a file *)

(** [copy_file_to_storage] is a copy to [storage_path]. *)
Lemma copy_file_to_storage_eq
      (home : string) (now : datetime) (fault : option string)
      (src name : string) (st : App) :
  copy_file_to_storage home now fault src name st =
  match Fs.copy2 fault src (storage_path home now name (disk st)) (disk st) with
  | inr d => (Some (storage_path home now name (disk st)), set_disk d st)
  | inl e =>
      (None, messagebox showerror "File Error" ("Failed to copy file: " +:+ e) st)
  end.
Proof.
  unfold copy_file_to_storage, storage_path.
  destruct (Fs.exists_ (OsPath.join (FILES_DIR home) name) (disk st));
    [destruct (OsPath.splitext name)|]; reflexivity.
Qed.

Lemma storage_path_inside (home : string) (now : datetime) (name : string)
      (d : gmap string bytes) :
  Py.contains OsPath.sep name = false ->
  in_files_dir home (storage_path home now name d).
Proof.
  intros Hname. unfold storage_path.
  destruct (Fs.exists_ (OsPath.join (FILES_DIR home) name) d).
  - destruct (OsPath.splitext name) as [base ext] eqn:Esplit.
    apply splitext_from_app in Esplit. subst name.
    rewrite contains_app in Hname. apply orb_false_elim in Hname as [Hb He].
    eexists. split; [apply join_files_dir|];
      now rewrite !contains_app, Hb, He, strftime_compact_no_sep.
  - exists name. split; [now apply join_files_dir | exact Hname].
Qed.

Lemma basename_after_sep (dir name : string) :
  Py.contains OsPath.sep name = false ->
  OsPath.basename (dir +:+ "/" +:+ name) = name.
Proof.
  intros Hname. induction dir as [|c dir IH].
  - change (EmptyString +:+ "/" +:+ name) with (String OsPath.sep name).
    cbn [OsPath.basename]. rewrite Hname. now rewrite Ascii.eqb_refl.
  - rewrite append_cons. cbn [OsPath.basename].
    rewrite contains_app.
    replace (Py.contains OsPath.sep ("/" +:+ name)) with true by reflexivity.
    now rewrite orb_true_r.
Qed.

Lemma exists_lookup (p : string) (d : gmap string bytes) :
  Fs.exists_ p d = true <-> is_Some (d !! p).
Proof. unfold Fs.exists_. apply bool_decide_eq_true. Qed.

(** The file that is copied is never its own destination. *)
Lemma storage_path_not_source (home : string) (now : datetime) (src : string)
      (b : bytes) (d : gmap string bytes) :
  d !! src = Some b ->
  src <> storage_path home now (OsPath.basename src) d.
Proof.
  intros Hsrc Heq.
  pose proof (storage_path_inside home now _ d (basename_no_sep src)) as Hin.
  rewrite <- Heq in Hin. destruct Hin as (n & Hp & Hn).
  assert (Hcand : OsPath.join (FILES_DIR home) (OsPath.basename src) = src).
  { rewrite Hp at 1. rewrite basename_after_sep by exact Hn.
    rewrite join_files_dir by exact Hn. now symmetry. }
  revert Heq. unfold storage_path. rewrite Hcand.
  assert (Hex : Fs.exists_ src d = true) by (apply exists_lookup; eauto).
  rewrite Hex. destruct (OsPath.splitext (OsPath.basename src)) as [base ext] eqn:Es.
  apply splitext_from_app in Es. intros E.
  rewrite <- Hcand in E at 1.
  assert (Hsep : Py.contains OsPath.sep (base +:+ ext) = false)
    by (rewrite <- Es; apply basename_no_sep).
  rewrite contains_app in Hsep. apply orb_false_elim in Hsep as [Hb He].
  rewrite !join_files_dir in E
    by (rewrite ?Es, ?contains_app, ?Hb, ?He, ?strftime_compact_no_sep;
        reflexivity).
  apply (f_equal String.length) in E. rewrite Es in E.
  rewrite !length_append, length_strftime_compact in E. simpl in E. lia.
Qed.

Lemma in_files_dir_truthy (home p : string) :
  in_files_dir home p -> Py.truthy p = true.
Proof.
  intros (n & -> & _). destruct (files_dir_shape home) as [parent ->].
  now destruct parent.
Qed.

(** [store_file] copies, and inserts the row only when the copy went well. *)
Lemma store_file_unfold
      (home : string) (now utc : datetime) (fault : option string)
      (src : string) (st : App) :
  let target := storage_path home now (OsPath.basename src) (disk st) in
  store_file home now utc fault src st =
  match Fs.copy2 fault src target (disk st) with
  | inr d =>
      load_entries
        (clear_inputs
           (set_conn
              (Db.insert utc file (OsPath.basename src)
                         (Py.lower (Py.strip (tag_entry st))) (Some target)
                         (Some (Py.strip (note_text st))) (conn st))
              (set_disk d st)))
  | inl e =>
      messagebox showerror "File Error" ("Failed to copy file: " +:+ e) st
  end.
Proof.
  cbv zeta. unfold store_file. rewrite copy_file_to_storage_eq, strip_text_get.
  destruct (Fs.copy2 _ _ _ _) as [e|d]; [reflexivity|].
  unfold falsy.
  now rewrite (in_files_dir_truthy home _
                 (storage_path_inside home now _ (disk st) (basename_no_sep src))).
Qed.



(** X2. Whenever the picked file exists and no I/O error occurs,
    [add_file] succeeds: exactly one file is written, inside the attachment
    directory and holding the bytes of the picked file, which stays where it
    was; one row of type file is appended that carries the base name as
    content, the new path as file path and the trimmed note box as
    description; no message is shown and both boxes are emptied. *)
Theorem add_file_stores_copy
        (home picked : string) (now utc : datetime) (b : bytes) (st : App) :
  Py.truthy picked = true ->
  disk st !! picked = Some b ->
  let st' := add_file home picked now utc None st in
  exists p,
    in_files_dir home p /\ p <> picked
    /\ disk st' = <[p := b]> (disk st)
    /\ disk st' !! p = Some b /\ disk st' !! picked = Some b
    /\ rows (conn st') =
         rows (conn st) ++
         [ {| id := Db.next_rowid (conn st); type := file;
              content := OsPath.basename picked;
              tags := Some (Py.lower (Py.strip (tag_entry st)));
              filepath := Some p;
              timestamp := Clock.current_timestamp utc;
              description := Some (Py.strip (note_text st)) |} ]
    /\ messages st' = messages st
    /\ note_text st' = EmptyString /\ tag_entry st' = EmptyString.
Proof.
  intros Hpicked Hsrc. cbv zeta. unfold add_file. rewrite Hpicked.
  cbn [negb]. rewrite store_file_unfold. unfold Fs.copy2. rewrite Hsrc.
  pose proof (storage_path_not_source home now picked b (disk st) Hsrc) as Hne.
  destruct (String.eqb_spec picked
              (storage_path home now (OsPath.basename picked) (disk st)))
    as [E|_]; [contradiction|].
  exists (storage_path home now (OsPath.basename picked) (disk st)).
  split; [apply storage_path_inside, basename_no_sep|].
  split; [congruence|]. cbn.
  split; [reflexivity|]. split; [apply lookup_insert_eq|].
  split; [now rewrite lookup_insert_ne|].
  repeat split.
Qed.

Lemma add_file_stores_copy_witness :
  let st' := add_file Scenario.home "/tmp/a.png" Scenario.noon Scenario.noon
                      None Scenario.one_file in
  exists p,
    in_files_dir Scenario.home p /\ p <> "/tmp/a.png"
    /\ disk st' = <[p := Scenario.photo]> (disk Scenario.one_file)
    /\ disk st' !! p = Some Scenario.photo
    /\ disk st' !! "/tmp/a.png" = Some Scenario.photo
    /\ rows (conn st') =
         rows (conn Scenario.one_file) ++
         [ {| id := 2; type := file; content := "a.png";
              tags := Some EmptyString; filepath := Some p;
              timestamp := "2026-01-01 12:00:00";
              description := Some EmptyString |} ]
    /\ messages st' = messages Scenario.one_file
    /\ note_text st' = EmptyString /\ tag_entry st' = EmptyString.
Proof.
  exact (add_file_stores_copy Scenario.home "/tmp/a.png" Scenario.noon
           Scenario.noon Scenario.photo Scenario.one_file eq_refl eq_refl).
Defined.

(** ** Deleting, once more *)

Lemma filter_all {A : Type} (f : A -> bool) (l : list A) :
  List.Forall (fun x => f x = true) l -> List.filter f l = l.
Proof.
  induction 1 as [|x l Hx _ IH]; simpl; [reflexivity|]. now rewrite Hx, IH.
Qed.

Lemma find_filter_other (i j : Z) (l : list Row) :
  j <> i ->
  List.find (fun r => id r =? j) (List.filter (fun r => negb (id r =? i)) l) =
  List.find (fun r => id r =? j) l.
Proof.
  intros Hne. induction l as [|x l IH]; simpl; [reflexivity|].
  destruct (Z.eqb_spec (id x) i) as [Hi|Hi]; simpl.
  - destruct (Z.eqb_spec (id x) j); [congruence | exact IH].
  - now rewrite IH.
Qed.


(** The disk after a confirmed [delete_entry]. *)
Lemma delete_entry_disk (fault : option string) (entry_id : Z) (st : App) :
  disk (delete_entry true fault entry_id st) =
  match Db.fetchone_by_id entry_id (conn st), fault with
  | Some entry, None =>
      match type entry, filepath entry with
      | file, Some p =>
          if Py.truthy p && Fs.exists_ p (disk st) then delete p (disk st)
          else disk st
      | _, _ => disk st
      end
  | _, _ => disk st
  end.
Proof.
  unfold delete_entry; simpl.
  destruct (Db.fetchone_by_id entry_id (conn st)) as [entry|]; [|reflexivity].
  destruct (type entry), (filepath entry) as [p|];
    try (now destruct fault).
  destruct (Py.truthy p && Fs.exists_ p (disk st)); now destruct fault.
Qed.

(** X3. Deleting an id that no row carries is a silent no-op on the data:
    the table and the disk stay as they are and no message is shown; the
    window goes back to the welcome text. *)
Theorem delete_missing_entry
        (fault : option string) (entry_id : Z) (st : App) :
  Forall (fun r => id r <> entry_id) (rows (conn st)) ->
  let st' := delete_entry true fault entry_id st in
  conn st' = conn st /\ disk st' = disk st
  /\ messages st' = messages st /\ display st' = Welcome.
Proof.
  intros Habsent. cbv zeta.
  split.
  - rewrite delete_entry_conn. unfold Db.delete_by_id.
    rewrite filter_all; [now destruct (conn st)|].
    eapply List.Forall_impl; [|exact Habsent].
    intros r Hr. now destruct (Z.eqb_spec (id r) entry_id).
  - unfold delete_entry; simpl. rewrite (fetchone_absent _ _ Habsent).
    now repeat split.
Qed.

Lemma delete_missing_entry_witness :
  let st' := delete_entry true None 7 Scenario.one_file in
  conn st' = conn Scenario.one_file /\ disk st' = disk Scenario.one_file
  /\ messages st' = messages Scenario.one_file /\ display st' = Welcome.
Proof.
  apply (delete_missing_entry None 7 Scenario.one_file).
  repeat constructor. discriminate.
Defined.

(** X4. A confirmed [delete_entry] touches nothing but its target: every
    other id is fetched as before, and every file other than the file path
    of the deleted row keeps its bytes. *)
Theorem delete_entry_frame (fault : option string) (entry_id : Z) (st : App) :
  let st' := delete_entry true fault entry_id st in
  (forall j, j <> entry_id ->
             Db.fetchone_by_id j (conn st') = Db.fetchone_by_id j (conn st))
  /\ (forall q,
        (forall entry, Db.fetchone_by_id entry_id (conn st) = Some entry ->
                       filepath entry <> Some q) ->
        disk st' !! q = disk st !! q).
Proof.
  cbv zeta. split.
  - intros j Hj. rewrite delete_entry_conn.
    unfold Db.fetchone_by_id, Db.delete_by_id. cbn [rows].
    now apply find_filter_other.
  - intros q Hq. rewrite delete_entry_disk.
    destruct (Db.fetchone_by_id entry_id (conn st)) as [entry|]; [|reflexivity].
    specialize (Hq entry eq_refl).
    destruct fault; [reflexivity|].
    destruct (type entry), (filepath entry) as [p|]; try reflexivity.
    destruct (Py.truthy p && Fs.exists_ p (disk st)); [|reflexivity].
    apply lookup_delete_ne. congruence.
Qed.

(** X5. When two rows share one file path, deleting one of them removes
    the file although the other row stays and still points at it. *)
Theorem delete_shared_attachment
        (entry_id : Z) (st : App) (r1 r2 : Row) (p : string) :
  Db.fetchone_by_id entry_id (conn st) = Some r1 ->
  type r1 = file -> filepath r1 = Some p ->
  Py.truthy p && Fs.exists_ p (disk st) = true ->
  In r2 (rows (conn st)) -> id r2 <> entry_id -> filepath r2 = Some p ->
  let st' := delete_entry true None entry_id st in
  In r2 (rows (conn st')) /\ filepath r2 = Some p /\ disk st' !! p = None.
Proof.
  intros Hrow Hty Hfp Hon Hin Hid Hfp2. cbv zeta.
  split; [|split; [exact Hfp2|]].
  - rewrite delete_entry_conn. cbn [Db.delete_by_id rows].
    apply filter_In. split; [exact Hin|].
    now destruct (Z.eqb_spec (id r2) entry_id).
  - rewrite delete_entry_disk, Hrow, Hty, Hfp, Hon. apply lookup_delete_eq.
Qed.

Lemma delete_shared_attachment_witness :
  let st' := delete_entry true None 1 Scenario.pasted_twice in
  let p := "/home/u/BrainDumpApp/files/paste_20260101120000.png" in
  let r2 := {| id := 2; type := file; content := "paste_20260101120000.png";
               tags := Some EmptyString; filepath := Some p;
               timestamp := "2026-01-01 12:00:00";
               description := Some EmptyString |} in
  In r2 (rows (conn st')) /\ filepath r2 = Some p /\ disk st' !! p = None.
Proof.
  cbv zeta.
  refine (delete_shared_attachment 1 Scenario.pasted_twice
            {| id := 1; type := file; content := "paste_20260101120000.png";
               tags := Some EmptyString;
               filepath := Some "/home/u/BrainDumpApp/files/paste_20260101120000.png";
               timestamp := "2026-01-01 12:00:00";
               description := Some EmptyString |}
            {| id := 2; type := file; content := "paste_20260101120000.png";
               tags := Some EmptyString;
               filepath := Some "/home/u/BrainDumpApp/files/paste_20260101120000.png";
               timestamp := "2026-01-01 12:00:00";
               description := Some EmptyString |}
            "/home/u/BrainDumpApp/files/paste_20260101120000.png"
            eq_refl eq_refl eq_refl eq_refl _ _ eq_refl).
  - right. left. reflexivity.
  - discriminate.
Defined.

(** ** The user's own files *)






(** ** Ids *)

(** One change of the database keeps the ids below the counter, never
    lowers the counter, and brings in no row with an id the counter had
    already passed. *)
Lemma db_change_ids (home : string) (db db' : Conn) :
  db_change home db db' ->
  List.Forall (fun r => id r <= seq db) (rows db) ->
  List.Forall (fun r => id r <= seq db') (rows db')
  /\ seq db <= seq db'
  /\ forall r, In r (rows db') -> id r <= seq db -> In r (rows db).
Proof.
  intros [|utc ty c t fp d _|i] Hb.
  - now repeat split.
  - cbn [Db.insert rows seq]. unfold Db.next_rowid.
    split; [|split; [lia|]].
    + apply Forall_app. split.
      * eapply List.Forall_impl; [|exact Hb]. cbn. intros r Hr. lia.
      * constructor; [cbn; lia | constructor].
    + intros r Hr Hid. apply in_app_or in Hr as [Hr|[<-|[]]]; [exact Hr|].
      cbn in Hid. lia.
  - cbn [Db.delete_by_id rows seq]. split; [|split; [lia|]].
    + apply List.Forall_forall. intros r [Hr _]%filter_In.
      now apply (proj1 (List.Forall_forall _ _) Hb).
    + intros r [Hr _]%filter_In _. exact Hr.
Qed.

(** X7. Ids are never reused and rows are never rewritten: after any run
    of the window the counter has not gone down, every row still sits at or
    below it, and every row whose id the counter had already reached before
    the run is a row that was there before, unchanged. *)
Theorem run_never_reuses_ids
        (home : string) (pil : bool) (acts : list Action) (st : App) :
  ids_bounded st ->
  let st' := run home pil acts st in
  ids_bounded st'
  /\ seq (conn st) <= seq (conn st')
  /\ forall r, In r (rows (conn st')) -> id r <= seq (conn st) ->
               In r (rows (conn st)).
Proof.
  cbv zeta. unfold run, ids_bounded. revert st.
  induction acts as [|a acts IH]; intros st Hb; [now repeat split|].
  cbn [fold_left].
  destruct (db_change_ids home _ _ (step_db_change home pil a st) Hb)
    as (Hb1 & Hseq1 & Hold1).
  destruct (IH (step home pil a st) Hb1) as (Hb2 & Hseq2 & Hold2).
  split; [exact Hb2|]. split; [lia|].
  intros r Hr Hid. apply Hold1; [|exact Hid]. apply Hold2; [exact Hr | lia].
Qed.

Lemma run_never_reuses_ids_witness :
  let st' := run Scenario.home true
               [DeleteEntry 3 true None; TypeNote "again" 5%nat;
                SaveNote (Scenario.later 9)]
               Scenario.notes in
  ids_bounded st'
  /\ seq (conn Scenario.notes) <= seq (conn st')
  /\ forall r, In r (rows (conn st')) -> id r <= seq (conn Scenario.notes) ->
               In r (rows (conn Scenario.notes)).
Proof.
  apply (run_never_reuses_ids Scenario.home true
           [DeleteEntry 3 true None; TypeNote "again" 5%nat;
            SaveNote (Scenario.later 9)]
           Scenario.notes).
  unfold ids_bounded. vm_compute. repeat constructor; discriminate.
Defined.

Example deleted_id_is_not_reused :
  map id (rows (conn (run Scenario.home true
                          [DeleteEntry 3 true None; TypeNote "again" 5%nat;
                           SaveNote (Scenario.later 9)]
                          Scenario.notes)))
  = [1; 2; 4].
Proof. reflexivity. Qed.

(** In a table in rowid order a row is fetched by its own id. *)
Lemma find_own_id (l : list Row) (r : Row) :
  StronglySorted (fun a b => id a < id b) l -> In r l ->
  List.find (fun x => id x =? id r) l = Some r.
Proof.
  induction 1 as [|x l Hl IH Hx]; intros Hin; [destruct Hin|]. simpl.
  destruct Hin as [->|Hin]; [now rewrite Z.eqb_refl|].
  destruct (Z.eqb_spec (id x) (id r)) as [E|_]; [|now apply IH].
  pose proof (proj1 (List.Forall_forall _ _) Hx r Hin) as Hlt.
  cbv beta in Hlt. lia.
Qed.

(** X8. In a table in rowid order, selecting any line of the listing shows
    the very row that line was made from. *)
Theorem select_listed_row (st : App) (item : TreeItem) :
  table_ordered st -> In item (tree (load_entries st)) ->
  exists entry,
    In entry (rows (conn st))
    /\ tree_item entry = item
    /\ display (on_entry_select [iid item] (load_entries st))
       = Viewing (iid item) entry.
Proof.
  intros Hord Hitem. cbn [load_entries set_tree tree] in Hitem.
  apply in_map_iff in Hitem as (entry & <- & Hin).
  unfold fetchall, Db.select_ordered in Hin.
  apply (Permutation_in _ (Permutation_sym (order_by_perm _))) in Hin.
  apply filter_In in Hin as [Hin _].
  exists entry. split; [exact Hin|]. split; [reflexivity|].
  unfold on_entry_select. rewrite load_entries_conn. cbn [tree_item iid].
  unfold Db.fetchone_by_id. now rewrite (find_own_id _ _ Hord Hin).
Qed.

Lemma select_listed_row_witness :
  exists entry,
    In entry (rows (conn Scenario.notes))
    /\ tree_item entry = {| iid := 2; values := ("2026-01-01 12:00", "Note", "abc") |}
    /\ display (on_entry_select [2] (load_entries Scenario.notes))
       = Viewing 2 entry.
Proof.
  apply (select_listed_row Scenario.notes
           {| iid := 2; values := ("2026-01-01 12:00", "Note", "abc") |}).
  - unfold table_ordered. vm_compute. repeat constructor.
  - vm_compute. right. left. reflexivity.
Defined.

(** ** Letter case in the filters *)

Lemma fold_char_idem (c : ascii) :
  Sql.fold_char (Sql.fold_char c) = Sql.fold_char c.
Proof. destruct c as [[] [] [] [] [] [] [] []]; reflexivity. Qed.

Lemma fold_char_percent (c : ascii) :
  Ascii.eqb (Sql.fold_char c) Sql.percent = Ascii.eqb c Sql.percent.
Proof. destruct c as [[] [] [] [] [] [] [] []]; reflexivity. Qed.

Lemma fold_char_underscore (c : ascii) :
  Ascii.eqb (Sql.fold_char c) Sql.underscore = Ascii.eqb c Sql.underscore.
Proof. destruct c as [[] [] [] [] [] [] [] []]; reflexivity. Qed.

Lemma isspace_fold_char (c : ascii) :
  Py.isspace (Sql.fold_char c) = Py.isspace c.
Proof. destruct c as [[] [] [] [] [] [] [] []]; reflexivity. Qed.

Lemma lower_char_fold_char (c : ascii) :
  Py.lower_char (Sql.fold_char c) = Py.lower_char c.
Proof. destruct c as [[] [] [] [] [] [] [] []]; reflexivity. Qed.

Lemma like_underscore (p s : string) :
  Sql.like (String Sql.underscore p) s =
  match s with
  | EmptyString => false
  | String _ s' => Sql.like p s'
  end.
Proof. destruct s; reflexivity. Qed.

(** LIKE does not see the case of the ASCII letters of its pattern. *)
Lemma like_fold_pattern (p s : string) :
  Sql.like (Spec.fold p) s = Sql.like p s.
Proof.
  revert s. induction p as [|c p IH]; intros s; [reflexivity|].
  cbn [Spec.fold].
  destruct (Ascii.eqb_spec c Sql.percent) as [->|Hp].
  - change (Sql.fold_char Sql.percent) with Sql.percent.
    induction s as [|d s IHs];
      rewrite (like_percent (Spec.fold p)), (like_percent p), IH;
      [reflexivity | now rewrite IHs].
  - destruct (Ascii.eqb_spec c Sql.underscore) as [->|Hu].
    + change (Sql.fold_char Sql.underscore) with Sql.underscore.
      rewrite !like_underscore. destruct s; [reflexivity | apply IH].
    + apply Ascii.eqb_neq in Hp, Hu.
      rewrite !like_literal
        by (rewrite ?fold_char_percent, ?fold_char_underscore; assumption).
      destruct s as [|d s]; [reflexivity|].
      unfold Sql.char_eq_nocase. now rewrite fold_char_idem, IH.
Qed.

Lemma fold_append (a b : string) :
  Spec.fold (a +:+ b) = Spec.fold a +:+ Spec.fold b.
Proof.
  induction a as [|c a IH]; [reflexivity|].
  rewrite append_cons. cbn [Spec.fold]. now rewrite IH, append_cons.
Qed.

Lemma truthy_fold (s : string) : Py.truthy (Spec.fold s) = Py.truthy s.
Proof. now destruct s. Qed.

Lemma lstrip_fold (s : string) :
  Py.lstrip_by Py.isspace (Spec.fold s) = Spec.fold (Py.lstrip_by Py.isspace s).
Proof.
  induction s as [|c s IH]; [reflexivity|].
  cbn [Spec.fold Py.lstrip_by]. rewrite isspace_fold_char.
  now destruct (Py.isspace c).
Qed.

Lemma rstrip_fold (s : string) :
  Py.rstrip_by Py.isspace (Spec.fold s) = Spec.fold (Py.rstrip_by Py.isspace s).
Proof.
  induction s as [|c s IH]; [reflexivity|].
  cbn [Spec.fold Py.rstrip_by]. rewrite IH, isspace_fold_char.
  destruct (Py.rstrip_by Py.isspace s); [now destruct (Py.isspace c)|reflexivity].
Qed.

Lemma strip_fold (s : string) : Py.strip (Spec.fold s) = Spec.fold (Py.strip s).
Proof. unfold Py.strip, Py.strip_by. now rewrite lstrip_fold, rstrip_fold. Qed.

Lemma lower_fold (s : string) : Py.lower (Spec.fold s) = Py.lower s.
Proof.
  induction s as [|c s IH]; [reflexivity|].
  cbn [Spec.fold Py.lower]. now rewrite lower_char_fold_char, IH.
Qed.

Lemma fetchall_fold (S T : string) (st : App) :
  fetchall (set_tag_filter_entry T (set_search_entry S st)) =
  fetchall (set_tag_filter_entry (Spec.fold T)
                                 (set_search_entry (Spec.fold S) st)).
Proof.
  unfold fetchall, Db.select_ordered.
  cbn [set_tag_filter_entry set_search_entry search_entry tag_filter_entry conn].
  f_equal. apply List.filter_ext. intros r.
  rewrite !where_clauses_like, !strip_fold, lower_fold, truthy_fold.
  change ("%" +:+ Spec.fold (Py.strip S) +:+ "%")
    with (Spec.fold "%" +:+ Spec.fold (Py.strip S) +:+ Spec.fold "%").
  rewrite <- !fold_append.
  rewrite (like_fold_pattern _ (content r)).
  destruct (description r); [now rewrite like_fold_pattern | reflexivity].
Qed.

(** X9. The listing does not depend on the case of the ASCII letters typed
    into the search box or the tag filter box, wildcards or not. *)
Theorem listing_ignores_case (S S' T T' : string) (st : App) :
  Spec.fold S = Spec.fold S' -> Spec.fold T = Spec.fold T' ->
  tree (load_entries (set_tag_filter_entry T (set_search_entry S st))) =
  tree (load_entries (set_tag_filter_entry T' (set_search_entry S' st))).
Proof.
  intros HS HT. cbn [load_entries set_tree tree].
  now rewrite (fetchall_fold S T), (fetchall_fold S' T'), HS, HT.
Qed.

Lemma listing_ignores_case_witness :
  tree (load_entries (set_tag_filter_entry "Home"
                        (set_search_entry "b_Y M%K" Scenario.notes))) =
  tree (load_entries (set_tag_filter_entry "hOME"
                        (set_search_entry "B_y m%k" Scenario.notes))).
Proof.
  exact (listing_ignores_case "b_Y M%K" "B_y m%k" "Home" "hOME" Scenario.notes
           eq_refl eq_refl).
Defined.

(** ** The shape of a preview *)

Lemma contains_take (ch : ascii) (n : nat) (s : string) :
  Py.contains ch s = false -> Py.contains ch (Py.take n s) = false.
Proof.
  revert s. induction n as [|n IH]; intros [|c s]; simpl; try reflexivity.
  intros [Hc Hs]%orb_false_elim. now rewrite Hc, IH.
Qed.

Lemma contains_remove_same (ch : ascii) (s : string) :
  Py.contains ch (Py.remove ch s) = false.
Proof.
  induction s as [|c s IH]; simpl; [reflexivity|].
  destruct (Ascii.eqb c ch) eqn:E; [exact IH|]. simpl. now rewrite E.
Qed.

Lemma contains_remove_other (ch other : ascii) (s : string) :
  Py.contains ch s = false -> Py.contains ch (Py.remove other s) = false.
Proof.
  induction s as [|c s IH]; simpl; [reflexivity|].
  intros [Hc Hs]%orb_false_elim.
  destruct (Ascii.eqb c other); [now apply IH|]. simpl. now rewrite Hc, IH.
Qed.

(** X10. The preview of a note is a single line of at most 53 characters:
    it holds neither a line feed nor a carriage return, whatever the note. *)
Theorem note_preview_single_line (c : string) :
  Py.contains Py.LF (preview note c) = false
  /\ Py.contains Py.CR (preview note c) = false
  /\ (String.length (preview note c) <= 53)%nat.
Proof.
  unfold preview.
  set (body := Py.take 50 (Py.remove Py.CR (Py.split_head Py.LF c))).
  assert (Hlf : Py.contains Py.LF body = false).
  { apply contains_take, contains_remove_other, split_head_spec. }
  assert (Hcr : Py.contains Py.CR body = false).
  { apply contains_take, contains_remove_same. }
  assert (Hlen : (String.length body <= 50)%nat) by apply length_take.
  destruct ((Py.len c >? 50) || Py.contains Py.LF c).
  - rewrite !contains_app, Hlf, Hcr, length_append. simpl. repeat split. lia.
  - repeat split; try assumption. lia.
Qed.

(** ** Newest first *)

Lemma order_by_snoc_newest (l : list Row) (x : Row) :
  List.Forall (fun r => Db.ts_ge r x = false) l ->
  Db.order_by_timestamp_desc (l ++ [x]) = x :: Db.order_by_timestamp_desc l.
Proof.
  unfold Db.order_by_timestamp_desc. rewrite fold_right_app. cbn [fold_right].
  induction 1 as [|y l Hy _ IH]; [reflexivity|].
  cbn [fold_right]. rewrite IH. cbn [Db.insert_sorted]. now rewrite Hy.
Qed.

Lemma fetchall_unfiltered (st : App) :
  Py.strip (search_entry st) = EmptyString ->
  Py.strip (tag_filter_entry st) = EmptyString ->
  fetchall st = Db.order_by_timestamp_desc (rows (conn st)).
Proof.
  intros HS HT. unfold fetchall, Db.select_ordered. rewrite HS, HT.
  f_equal. apply filter_all. apply List.Forall_forall. reflexivity.
Qed.

(** X11. With both filter boxes blank, a note saved at a clock reading whose
    timestamp is later than every stored one becomes the first line of the
    listing. *)
Theorem newest_note_listed_first (utc : datetime) (st : App) :
  Py.truthy (Py.strip (note_text st)) = true ->
  Py.strip (search_entry st) = EmptyString ->
  Py.strip (tag_filter_entry st) = EmptyString ->
  Forall (fun r => String.leb (Clock.current_timestamp utc) (timestamp r) = false)
         (rows (conn st)) ->
  exists rest,
    map iid (tree (add_note utc st)) = Db.next_rowid (conn st) :: rest
    /\ Permutation rest (map id (rows (conn st))).
Proof.
  intros Hnote HS HT Holder. rewrite add_note_unfold, Hnote.
  cbn [load_entries set_tree tree]. rewrite fetchall_unfiltered by assumption.
  cbn [clear_inputs set_tag_entry set_note_text set_conn conn Db.insert rows].
  rewrite order_by_snoc_newest by exact Holder.
  cbn [map tree_item iid id]. rewrite map_map. cbn [tree_item iid].
  eexists. split; [reflexivity|].
  apply Permutation_map, Permutation_sym, order_by_perm.
Qed.

Lemma newest_note_listed_first_witness :
  exists rest,
    map iid (tree (add_note (Scenario.later 9)
                            (Scenario.typed "newest" "t" Scenario.notes)))
    = 4 :: rest
    /\ Permutation rest [1; 2; 3].
Proof.
  apply (newest_note_listed_first (Scenario.later 9)
           (Scenario.typed "newest" "t" Scenario.notes) eq_refl eq_refl eq_refl).
  vm_compute. repeat constructor.
Defined.

(** ** Pasting text *)

(** X12. Unless the clipboard holds an image or the path of an existing
    image file, pasting persists nothing: the table, the disk and the
    listing stay as they are; clipboard text goes into the note box at the
    insertion mark, without a message. *)
Theorem paste_without_image_persists_nothing
        (home : string) (pil : bool) (grab : Grab) (clip : ClipText)
        (now utc : datetime) (fault : option string) (st : App) :
  (forall im, grab <> GrabImage im) ->
  (forall text, clip = ClipOk text ->
     let cleaned_path := Py.strip_char Py.QUOTE (Py.strip text) in
     Fs.exists_ cleaned_path (disk st) && Fs.isfile cleaned_path (disk st)
     && Py.endswith_any valid_image_extensions (Py.lower cleaned_path) = false) ->
  let st' := paste_from_clipboard home pil grab clip now utc fault st in
  conn st' = conn st /\ disk st' = disk st /\ tree st' = tree st
  /\ (forall text, pil = true -> clip = ClipOk text -> Py.truthy text = true ->
        note_text st' =
          Py.take (note_cursor st) (note_text st) +:+ text
          +:+ Tk.drop (note_cursor st) (note_text st)
        /\ messages st' = messages st).
Proof.
  intros Hgrab Hclip. cbv zeta.
  assert (Htext : forall cl,
             cl = clip ->
             let st' := paste_text home cl now utc fault st in
             conn st' = conn st /\ disk st' = disk st /\ tree st' = tree st
             /\ (forall text, cl = ClipOk text -> Py.truthy text = true ->
                   note_text st' =
                     Py.take (note_cursor st) (note_text st) +:+ text
                     +:+ Tk.drop (note_cursor st) (note_text st)
                   /\ messages st' = messages st)).
  { intros cl ->. cbv zeta. unfold paste_text.
    destruct clip as [text| |e];
      try (repeat split; try reflexivity; intros; discriminate).
    specialize (Hclip text eq_refl). cbv zeta in Hclip.
    destruct (Py.truthy text) eqn:Ht; cbn [negb].
    - rewrite Hclip. cbn. repeat split; try reflexivity; congruence.
    - repeat split; try reflexivity; congruence. }
  unfold paste_from_clipboard. destruct pil; cbn [negb].
  - destruct grab as [im| | |].
    + now destruct (Hgrab im).
    + destruct (Htext clip eq_refl) as (H1 & H2 & H3 & H4).
      split; [exact H1|]. split; [exact H2|]. split; [exact H3|].
      intros t _ E Ht. now apply H4.
    + destruct (Htext clip eq_refl) as (H1 & H2 & H3 & H4).
      split; [exact H1|]. split; [exact H2|]. split; [exact H3|].
      intros t _ E Ht. now apply H4.
    + destruct clip as [text| |e] eqn:Ec;
        try (repeat split; try reflexivity; intros; discriminate).
      destruct (Htext (ClipOk text) eq_refl) as (H1 & H2 & H3 & H4).
      split; [exact H1|]. split; [exact H2|]. split; [exact H3|].
      intros t _ E Ht. now apply H4.
  - repeat split; try reflexivity; intros; discriminate.
Qed.

Lemma paste_without_image_persists_nothing_witness :
  let st := Scenario.typed "milk, " EmptyString Scenario.one_file in
  let st' := paste_from_clipboard Scenario.home true GrabNone (ClipOk "eggs")
                                  Scenario.noon Scenario.noon None st in
  conn st' = conn st /\ disk st' = disk st /\ tree st' = tree st
  /\ note_text st' = "milk, eggs" /\ messages st' = messages st.
Proof.
  cbv zeta.
  destruct (paste_without_image_persists_nothing Scenario.home true GrabNone
              (ClipOk "eggs") Scenario.noon Scenario.noon None
              (Scenario.typed "milk, " EmptyString Scenario.one_file))
    as (H1 & H2 & H3 & H4).
  - discriminate.
  - intros text [= <-]. reflexivity.
  - destruct (H4 "eggs" eq_refl eq_refl eq_refl) as [H5 H6].
    repeat split; assumption.
Defined.

(** ** Opening an attachment *)

Lemma head_of_after_sep (dir name : string) :
  Py.contains OsPath.sep name = false ->
  head_of (dir +:+ "/" +:+ name) = dir +:+ "/".
Proof.
  intros Hname. induction dir as [|c dir IH].
  - change (EmptyString +:+ "/" +:+ name) with (String OsPath.sep name).
    cbn [head_of]. rewrite Hname. now rewrite Ascii.eqb_refl.
  - rewrite (append_cons c dir ("/" +:+ name)), (append_cons c dir "/").
    cbn [head_of]. rewrite contains_app.
    replace (Py.contains OsPath.sep ("/" +:+ name)) with true by reflexivity.
    now rewrite orb_true_r, IH.
Qed.

Lemma all_sep_app (a b : string) :
  all_sep (a +:+ b) = all_sep a && all_sep b.
Proof.
  induction a as [|c a IH]; [reflexivity|].
  rewrite append_cons. cbn [all_sep]. now rewrite IH, andb_assoc.
Qed.

Lemma rstrip_by_app_keep (p : ascii -> bool) (a b : string) :
  Py.rstrip_by p b = b -> b <> EmptyString ->
  Py.rstrip_by p (a +:+ b) = a +:+ b.
Proof.
  intros Hb Hne. induction a as [|c a IH]; [exact Hb|].
  rewrite append_cons. cbn [Py.rstrip_by]. rewrite IH.
  destruct (a +:+ b) eqn:E; [|reflexivity].
  apply append_empty_inv in E as [_ E]. contradiction.
Qed.

(** The directory of a stored attachment is the attachment directory. *)
Lemma dirname_in_files_dir (home p : string) :
  in_files_dir home p -> dirname p = FILES_DIR home.
Proof.
  intros (name & -> & Hname). unfold dirname.
  rewrite head_of_after_sep by exact Hname.
  destruct (files_dir_shape home) as [parent ->].
  assert (Htruthy : Py.truthy ((parent +:+ "files") +:+ "/") = true)
    by (destruct parent; reflexivity).
  assert (Hsep : all_sep ((parent +:+ "files") +:+ "/") = false)
    by (rewrite !all_sep_app; cbn; now rewrite andb_false_r).
  rewrite Htruthy, Hsep. cbn [negb andb].
  rewrite rstrip_by_snoc by reflexivity.
  apply rstrip_by_app_keep; [reflexivity | discriminate].
Qed.

(** X13. For every file row of a table that keeps the invariant, the
    "Open File Location" button on Linux asks xdg-open for the attachment
    directory itself; a failure of the launch is reported in one "Error"
    message and changes nothing else. *)
Theorem open_file_location_opens_files_dir
        (home : string) (normpath : string -> string) (fault : option string)
        (st : App) (entry : Row) :
  store_ok home st -> In entry (rows (conn st)) -> type entry = file ->
  exists p,
    filepath entry = Some p
    /\ fst (open_file_location normpath other_platform fault p st)
       = Subprocess ["xdg-open"; FILES_DIR home]
    /\ let st' := snd (open_file_location normpath other_platform fault p st) in
       conn st' = conn st /\ disk st' = disk st /\ display st' = display st
       /\ messages st' =
            messages st ++
            match fault with
            | Some e =>
                [ {| box := showerror; title := "Error";
                     message := "Could not open file location: " +:+ e |} ]
            | None => []
            end.
Proof.
  intros Hok Hin Hty.
  pose proof (proj1 (List.Forall_forall _ _) Hok entry Hin) as Hrow.
  unfold row_ok in Hrow. rewrite Hty in Hrow. destruct Hrow as (p & Hfp & Hp).
  exists p. split; [exact Hfp|]. split.
  - cbn. now rewrite (dirname_in_files_dir home p Hp).
  - destruct fault; cbn; repeat split. now rewrite app_nil_r.
Qed.

Lemma open_file_location_opens_files_dir_witness :
  exists p,
    Some "/home/u/BrainDumpApp/files/a.png" = Some p
    /\ fst (open_file_location (fun x => x) other_platform None p
                               Scenario.one_file)
       = Subprocess ["xdg-open"; "/home/u/BrainDumpApp/files"]
    /\ let st' := snd (open_file_location (fun x => x) other_platform None p
                                          Scenario.one_file) in
       conn st' = conn Scenario.one_file /\ disk st' = disk Scenario.one_file
       /\ display st' = display Scenario.one_file
       /\ messages st' = messages Scenario.one_file ++ [].
Proof.
  refine (open_file_location_opens_files_dir Scenario.home (fun x => x) None
            Scenario.one_file
            {| id := 1; type := file; content := "a.png";
               tags := Some EmptyString;
               filepath := Some "/home/u/BrainDumpApp/files/a.png";
               timestamp := "2026-01-01 12:00:00";
               description := Some EmptyString |} _ _ eq_refl).
  - vm_compute. repeat constructor. eexists. split; [reflexivity|].
    exists "a.png". split; reflexivity.
  - vm_compute. left. reflexivity.
Defined.

(** ** Pasted images on display *)

Lemma lower_append (a b : string) :
  Py.lower (a +:+ b) = Py.lower a +:+ Py.lower b.
Proof.
  induction a as [|c a IH]; [reflexivity|].
  rewrite append_cons. cbn [Py.lower]. now rewrite IH, append_cons.
Qed.

Lemma endswith_png (a : string) : Py.endswith ".png" (a +:+ ".png") = true.
Proof.
  unfold Py.endswith. rewrite rev_onto_app. cbn [Py.rev_onto Py.startswith].
  now rewrite !Ascii.eqb_refl.
Qed.

(** X14. An image pasted from the clipboard is stored under a path that
    [display_entry] recognises as an image whenever Pillow is available, so
    its preview is always attempted. *)
Theorem pasted_image_is_displayed_as_image
        (home : string) (now utc : datetime) (im : bytes) (st : App) :
  exists entry,
    rows (conn (save_pasted_image_data home now utc None im st)) =
      rows (conn st) ++ [entry]
    /\ type entry = file
    /\ is_image true (filepath entry) = true
    /\ is_image false (filepath entry) = false.
Proof.
  unfold save_pasted_image_data, Fs.save.
  cbn [load_entries clear_inputs set_conn set_disk set_tree set_note_text
       set_tag_entry conn Db.insert rows].
  eexists. split; [reflexivity|]. split; [reflexivity|].
  split; [|reflexivity]. cbn [filepath is_image andb].
  assert (Hname : Py.contains OsPath.sep
                    ("paste_" +:+ Clock.strftime_compact now +:+ ".png") = false)
    by now rewrite !contains_app, strftime_compact_no_sep.
  rewrite (join_files_dir home _ Hname).
  rewrite (in_files_dir_truthy home); [|eexists; split; [reflexivity | exact Hname]].
  cbn [andb]. unfold Py.endswith_any, display_image_extensions. cbn [existsb].
  rewrite <- !append_assoc, lower_append.
  change (Py.lower ".png") with ".png". now rewrite endswith_png.
Qed.

(** ** What is written into a row *)

Lemma lower_char_idem (c : ascii) :
  Py.lower_char (Py.lower_char c) = Py.lower_char c.
Proof. destruct c as [[] [] [] [] [] [] [] []]; reflexivity. Qed.

Lemma isspace_lower_char (c : ascii) :
  Py.isspace (Py.lower_char c) = Py.isspace c.
Proof. destruct c as [[] [] [] [] [] [] [] []]; reflexivity. Qed.

Lemma lower_idem (s : string) : Py.lower (Py.lower s) = Py.lower s.
Proof.
  induction s as [|c s IH]; [reflexivity|].
  cbn [Py.lower]. now rewrite lower_char_idem, IH.
Qed.

Lemma lstrip_lower (s : string) :
  Py.lstrip_by Py.isspace (Py.lower s) = Py.lower (Py.lstrip_by Py.isspace s).
Proof.
  induction s as [|c s IH]; [reflexivity|].
  cbn [Py.lower Py.lstrip_by]. rewrite isspace_lower_char.
  now destruct (Py.isspace c).
Qed.

Lemma rstrip_lower (s : string) :
  Py.rstrip_by Py.isspace (Py.lower s) = Py.lower (Py.rstrip_by Py.isspace s).
Proof.
  induction s as [|c s IH]; [reflexivity|].
  cbn [Py.lower Py.rstrip_by]. rewrite IH, isspace_lower_char.
  destruct (Py.rstrip_by Py.isspace s); [now destruct (Py.isspace c)|reflexivity].
Qed.

Lemma strip_lower (s : string) : Py.strip (Py.lower s) = Py.lower (Py.strip s).
Proof. unfold Py.strip, Py.strip_by. now rewrite lstrip_lower, rstrip_lower. Qed.

Lemma rstrip_by_idem (p : ascii -> bool) (s : string) :
  Py.rstrip_by p (Py.rstrip_by p s) = Py.rstrip_by p s.
Proof.
  induction s as [|c s IH]; [reflexivity|]. cbn [Py.rstrip_by].
  destruct (Py.rstrip_by p s) as [|a r] eqn:E.
  - destruct (p c) eqn:Hc; [reflexivity|]. cbn [Py.rstrip_by]. now rewrite Hc.
  - cbn [Py.rstrip_by] in *. now rewrite IH.
Qed.

(** What [lstrip_by] leaves is empty or starts with a character it keeps. *)
Lemma lstrip_by_head (p : ascii -> bool) (s : string) :
  match Py.lstrip_by p s with
  | EmptyString => True
  | String c _ => p c = false
  end.
Proof.
  induction s as [|c s IH]; [exact I|]. cbn [Py.lstrip_by].
  destruct (p c) eqn:Hc; [exact IH | exact Hc].
Qed.

Lemma strip_by_idem (p : ascii -> bool) (s : string) :
  Py.strip_by p (Py.strip_by p s) = Py.strip_by p s.
Proof.
  unfold Py.strip_by. pose proof (lstrip_by_head p s) as Hhead.
  destruct (Py.lstrip_by p s) as [|c x]; [reflexivity|].
  assert (Hr : exists y, Py.rstrip_by p (String c x) = String c y).
  { cbn [Py.rstrip_by]. destruct (Py.rstrip_by p x); [|eauto].
    rewrite Hhead. eauto. }
  destruct Hr as [y Hy]. rewrite Hy. cbn [Py.lstrip_by]. rewrite Hhead.
  rewrite <- Hy. apply rstrip_by_idem.
Qed.

Lemma strip_idem (s : string) : Py.strip (Py.strip s) = Py.strip s.
Proof. apply strip_by_idem. Qed.

Lemma tags_normal (x : string) :
  exists t, Some (Py.lower (Py.strip x)) = Some t
            /\ Py.lower t = t /\ Py.strip t = t.
Proof.
  eexists. split; [reflexivity|]. split; [apply lower_idem|].
  now rewrite strip_lower, strip_idem.
Qed.

Lemma store_file_shaped_change
      (home : string) (now utc : datetime) (fault : option string)
      (src : string) (st : App) :
  shaped_change (conn st) (conn (store_file home now utc fault src st)).
Proof.
  rewrite store_file_unfold.
  destruct (Fs.copy2 _ _ _ _) as [e|d]; [constructor|].
  cbn [load_entries clear_inputs set_conn set_disk set_tree set_note_text
       set_tag_entry conn].
  constructor. split; [apply tags_normal|]. cbn [type content description].
  split; [apply basename_no_sep|].
  eexists. split; [reflexivity | apply strip_idem].
Qed.

Lemma save_pasted_image_data_shaped_change
      (home : string) (now utc : datetime) (fault : option string)
      (im : bytes) (st : App) :
  shaped_change (conn st)
                (conn (save_pasted_image_data home now utc fault im st)).
Proof.
  unfold save_pasted_image_data, Fs.save.
  destruct fault; [constructor|].
  cbn [load_entries clear_inputs set_conn set_disk set_tree set_note_text
       set_tag_entry conn].
  constructor. split; [apply tags_normal|]. cbn [type content description].
  split; [now rewrite !contains_app, strftime_compact_no_sep|].
  eexists. split; [reflexivity|]. now rewrite strip_text_get, strip_idem.
Qed.

Lemma paste_text_shaped_change
      (home : string) (clip : ClipText) (now utc : datetime)
      (fault : option string) (st : App) :
  shaped_change (conn st) (conn (paste_text home clip now utc fault st)).
Proof.
  unfold paste_text. destruct clip as [text| |e]; try constructor.
  destruct (Py.truthy text); simpl; [|constructor].
  match goal with |- context [if ?b then _ else _] => destruct b end.
  - apply store_file_shaped_change.
  - constructor.
Qed.

Lemma step_shaped_change (home : string) (pil : bool) (a : Action) (st : App) :
  shaped_change (conn st) (conn (step home pil a st)).
Proof.
  destruct a; simpl; try constructor.
  - rewrite add_note_unfold.
    destruct (Py.truthy (Py.strip (note_text st))) eqn:Hnote; [|constructor].
    cbn [load_entries clear_inputs set_conn set_tree set_note_text
         set_tag_entry conn].
    constructor. split; [apply tags_normal|]. cbn [type content description].
    split; [exact Hnote|]. split; [apply strip_idem | reflexivity].
  - unfold add_file. destruct (Py.truthy picked); simpl; [|constructor].
    apply store_file_shaped_change.
  - unfold paste_from_clipboard. destruct pil; simpl; [|constructor].
    destruct grab.
    + apply save_pasted_image_data_shaped_change.
    + apply paste_text_shaped_change.
    + apply paste_text_shaped_change.
    + destruct clip; try constructor. apply paste_text_shaped_change.
  - unfold on_entry_select. destruct selected_items as [|i sel]; [constructor|].
    destruct (Db.fetchone_by_id i (conn st)); constructor.
  - destruct askyesno; [|constructor].
    rewrite delete_entry_conn. constructor.
Qed.

(** X15. Every action keeps the table well shaped: tags are stored trimmed
    and in lower case; a note has a trimmed, non-empty content and no
    description; a file entry has a plain file name as content and a
    trimmed description. *)
Theorem step_preserves_rows_shaped
        (home : string) (pil : bool) (a : Action) (st : App) :
  rows_shaped st -> rows_shaped (step home pil a st).
Proof.
  unfold rows_shaped. intros Hst.
  destruct (step_shaped_change home pil a st) as [|utc ty c t fp d Hrow|i].
  - exact Hst.
  - cbn [Db.insert rows]. apply Forall_app. split; [exact Hst|].
    constructor; [exact Hrow | constructor].
  - cbn [Db.delete_by_id rows]. apply List.Forall_forall.
    intros r [Hr _]%filter_In.
    now apply (proj1 (List.Forall_forall _ _) Hst).
Qed.

Lemma step_preserves_rows_shaped_witness :
  rows_shaped
    (step Scenario.home true (SaveNote (Scenario.later 5))
          (Scenario.typed "  Buy milk  " " Home,TODO " Scenario.one_file)).
Proof.
  apply (step_preserves_rows_shaped Scenario.home true
           (SaveNote (Scenario.later 5))
           (Scenario.typed "  Buy milk  " " Home,TODO " Scenario.one_file)).
  unfold rows_shaped.
  set (table := rows _). vm_compute in table. subst table.
  constructor; [|constructor].
  split; [exists EmptyString; repeat split|].
  split; [reflexivity|]. exists EmptyString. split; reflexivity.
Defined.

Example shaped_row_example :
  map (fun r => (content r, tags r, description r))
      (rows (conn (step Scenario.home true (SaveNote (Scenario.later 5))
                        (Scenario.typed "  Buy milk  " " Home,TODO "
                                        Scenario.one_file))))
  = [("a.png", Some EmptyString, Some EmptyString);
     ("Buy milk", Some "home,todo", None)].
Proof. reflexivity. Qed.
